(** * Message handler plugins of the wasm keeper

    A shallow embedding of [x/wasm/keeper/handler_plugin.go] and the
    properties of its four message handlers:

    - [SDKMessageHandler]: encodes a contract message into [sdk.Msg]s,
      authorizes each one and routes it (service router first, legacy
      router second);
    - [MessageHandlerChain]: tries a list of handlers one after another;
    - [IBCRawPacketHandler]: publishes a raw IBC packet on a channel;
    - the burn handler built by [NewBurnCoinMessageHandler].

    Every Go function that receives an [sdk.Context] may read and write the
    stores reachable through it, so it is embedded as a state transformer
    over an abstract store type.  A nil slice and an empty slice are both
    the empty list; a [uint64] is an [N], as the file does no arithmetic
    on one. *)

From Stdlib Require Import List String Ascii Bool NArith ZArith Arith Lia.
From Stdlib.Strings Require Import Byte.
From Stdlib Require Import DecimalString.
Import ListNotations.
Open Scope string_scope.
Open Scope list_scope.

Set Implicit Arguments.

(* ================================================================== *)
(** ** Errors *)

(** The registered errors the file refers to ([types.Err...],
    [sdkerrors.Err...], [channeltypes.Err...]); [ErrOther] stands for any
    other root error a collaborator may return. *)
Inductive ErrKind : Type :=
| ErrUnknownMsg
| ErrUnsupportedForContract
| ErrEmpty
| ErrUnauthorized
| ErrPanic
| ErrUnknownRequest
| ErrSequenceSendNotFound
| ErrInvalidChannel
| ErrChannelCapabilityNotFound
| ErrOther (name : string).

(** A Go error value: a root error, or an error wrapped with a description
    by [sdkerrors.Wrap] / [sdkerrors.Wrapf].  A nil error is [None] in
    [option error]. *)
Inductive error : Type :=
| Root (k : ErrKind)
| Wrap (parent : error) (description : string).

Definition ErrKind_eqb (a b : ErrKind) : bool :=
  match a, b with
  | ErrUnknownMsg, ErrUnknownMsg => true
  | ErrUnsupportedForContract, ErrUnsupportedForContract => true
  | ErrEmpty, ErrEmpty => true
  | ErrUnauthorized, ErrUnauthorized => true
  | ErrPanic, ErrPanic => true
  | ErrUnknownRequest, ErrUnknownRequest => true
  | ErrSequenceSendNotFound, ErrSequenceSendNotFound => true
  | ErrInvalidChannel, ErrInvalidChannel => true
  | ErrChannelCapabilityNotFound, ErrChannelCapabilityNotFound => true
  | ErrOther x, ErrOther y => String.eqb x y
  | _, _ => false
  end.

(** [errors.Is(err, target)] for a registered [target]: the chain of causes
    of [err] is walked down to its root. *)
Fixpoint errors_Is (err : error) (target : ErrKind) : bool :=
  match err with
  | Root k => ErrKind_eqb k target
  | Wrap parent _ => errors_Is parent target
  end.

(* ================================================================== *)
(** ** Data *)

(** Types of the Cosmos SDK ([sdk.]). *)
Module sdk.

(** [AccAddress] is a byte slice. *)
Definition AccAddress : Type := list byte.

(** [bytes.Equal]. *)
Fixpoint bytes_Equal (a b : list byte) : bool :=
  match a, b with
  | [], [] => true
  | x :: a', y :: b' => Byte.eqb x y && bytes_Equal a' b'
  | _, _ => false
  end.

(** [aa.Equals(aa2)]: both empty, or the same bytes. *)
Definition Equals (aa aa2 : AccAddress) : bool :=
  match aa, aa2 with
  | [], [] => true
  | _, _ => bytes_Equal aa aa2
  end.

(** [sdk.Event] (a converted [abci.Event]): a type and its attributes. *)
Record Event : Type := mkEvent {
  Type_ : string;
  Attributes : list (string * string)
}.

(** [sdk.Result]. *)
Record Result : Type := mkResult {
  Data : list byte;
  Log : string;
  Events : list Event
}.

(** An [sdk.Msg] value, seen through the methods the handler calls on it.
    [LegacyRoute] is [Some r] when the value also implements
    [legacytx.LegacyMsg], with [r] what its [Route()] returns; [Format]
    is its rendering by the verb [%+v]. *)
Record Msg : Type := mkMsg {
  TypeURL : string;
  ValidateBasic : option error;
  GetSigners : list AccAddress;
  LegacyRoute : option string;
  Format : string
}.

(** [sdk.Coin] and [sdk.Coins]. *)
Record Coin : Type := mkCoin {
  Denom : string;
  Amount : Z
}.

Definition Coins : Type := list Coin.

End sdk.

(** Messages of the contract VM ([wasmvmtypes.]); a pointer field is an
    [option]. *)
Module wasmvmtypes.

Record Coin : Type := mkCoin {
  Denom : string;
  Amount : string
}.

Record BurnMsg : Type := mkBurnMsg {
  Amount_ : list Coin
}.

Record SendMsg : Type := mkSendMsg {
  ToAddress : string;
  SendAmount : list Coin
}.

Record BankMsg : Type := mkBankMsg {
  Send : option SendMsg;
  Burn : option BurnMsg
}.

Record IBCTimeoutBlock : Type := mkIBCTimeoutBlock {
  Revision : N;
  Height : N
}.

Record IBCTimeout : Type := mkIBCTimeout {
  Block : option IBCTimeoutBlock;
  Timestamp : N
}.

Record SendPacketMsg : Type := mkSendPacketMsg {
  ChannelID : string;
  Data : list byte;
  Timeout_ : IBCTimeout
}.

Record CloseChannelMsg : Type := mkCloseChannelMsg {
  CloseChannelID : string
}.

Record IBCMsg : Type := mkIBCMsg {
  SendPacket : option SendPacketMsg;
  CloseChannel : option CloseChannelMsg
}.

(** [wasmvmtypes.CosmosMsg]: a struct of optional variants.  The variants
    this file never inspects are kept as one opaque payload. *)
Record CosmosMsg : Type := mkCosmosMsg {
  Bank : option BankMsg;
  IBC : option IBCMsg;
  Custom : option string
}.

End wasmvmtypes.

(** Types of ibc-go ([clienttypes.], [channeltypes.], [capabilitytypes.]). *)
Module channeltypes.

Record Counterparty : Type := mkCounterparty {
  PortId : string;
  ChannelId : string
}.

Record Channel : Type := mkChannel {
  State : N;
  Ordering : N;
  Counterparty_ : Counterparty;
  ConnectionHops : list string;
  Version : string
}.

(** [clienttypes.Height]. *)
Record Height : Type := mkHeight {
  RevisionNumber : N;
  RevisionHeight : N
}.

Record Packet : Type := mkPacket {
  Sequence : N;
  SourcePort : string;
  SourceChannel : string;
  DestinationPort : string;
  DestinationChannel : string;
  Data : list byte;
  TimeoutHeight : Height;
  TimeoutTimestamp : N
}.

(** [channeltypes.NewPacket]. *)
Definition NewPacket (data : list byte) (sequence : N)
    (sourcePort sourceChannel destinationPort destinationChannel : string)
    (timeoutHeight : Height) (timeoutTimestamp : N) : Packet :=
  {| Data := data;
     Sequence := sequence;
     SourcePort := sourcePort;
     SourceChannel := sourceChannel;
     DestinationPort := destinationPort;
     DestinationChannel := destinationChannel;
     TimeoutHeight := timeoutHeight;
     TimeoutTimestamp := timeoutTimestamp |}.

(** [capabilitytypes.Capability]; the keeper hands out a pointer. *)
Record Capability : Type := mkCapability {
  Index : N
}.

End channeltypes.

(** What every [DispatchMsg] returns: events, data and error. *)
Definition DispatchResult : Type :=
  (list sdk.Event * list (list byte) * option error)%type.

(* ================================================================== *)
(** ** Calls that take the context *)

(** A computation over the stores behind the [sdk.Context]. *)
Definition M (St A : Type) : Type := St -> A * St.

Definition ret {St A : Type} (a : A) : M St A := fun s => (a, s).

Definition bind {St A B : Type} (c : M St A) (k : A -> M St B) : M St B :=
  fun s => let (a, s') := c s in k a s'.

Notation "x <- c ;; k" := (bind c (fun x => k))
  (at level 61, c at next level, right associativity).
Notation "' pat <- c ;; k" := (bind c (fun x => match x with pat => k end))
  (at level 61, pat pattern, c at next level, right associativity).

(** The [Messenger] interface: its one method, [DispatchMsg]. *)
Definition Messenger (St : Type) : Type :=
  sdk.AccAddress -> string -> wasmvmtypes.CosmosMsg -> M St DispatchResult.

(** [MessageHandlerFunc]: a function used as a handler; its [DispatchMsg]
    hands the call to the function. *)
Definition MessageHandlerFunc (St : Type) : Type :=
  sdk.AccAddress -> string -> wasmvmtypes.CosmosMsg -> M St DispatchResult.

Definition MessageHandlerFunc_DispatchMsg {St : Type}
    (m : MessageHandlerFunc St) : Messenger St :=
  fun contractAddr contractIBCPortID msg =>
    m contractAddr contractIBCPortID msg.

(* ================================================================== *)
(** ** MessageHandlerChain *)

Record MessageHandlerChain (St : Type) : Type := mkChain {
  handlers : list (Messenger St)
}.

(** The loop of [MessageHandlerChain.DispatchMsg] over the handlers that
    are left. *)
Fixpoint chain_loop {St : Type} (hs : list (Messenger St))
    (contractAddr : sdk.AccAddress) (contractIBCPortID : string)
    (msg : wasmvmtypes.CosmosMsg) : M St DispatchResult :=
  match hs with
  | [] => ret ([], [], Some (Wrap (Root ErrUnknownMsg) "no handler found"))
  | h :: rest =>
      '(events, data, err) <- h contractAddr contractIBCPortID msg ;;
      match err with
      | None => ret (events, data, None)
      | Some e =>
          if errors_Is e ErrUnknownMsg
          then chain_loop rest contractAddr contractIBCPortID msg
          else ret (events, data, Some e)
      end
  end.

Definition MessageHandlerChain_DispatchMsg {St : Type}
    (m : MessageHandlerChain St) : Messenger St :=
  chain_loop (handlers m).

(** The value of a Go call that may panic. *)
Inductive Outcome (A : Type) : Type :=
| Returned (a : A)
| Panicked (message : string).

Arguments Returned {A} a.
Arguments Panicked {A} message.

(** [fmt.Sprintf("%d", i)] for a non-negative [i]. *)
Definition Sprintf_d (i : nat) : string :=
  NilEmpty.string_of_uint (Nat.to_uint i).

(** The nil check of [NewMessageHandlerChain], from position [i] on. *)
Fixpoint check_handlers {St : Type} (i : nat)
    (hs : list (option (Messenger St))) : Outcome (list (Messenger St)) :=
  match hs with
  | [] => Returned []
  | None :: _ =>
      Panicked ("handler must not be nil at position : " ++ Sprintf_d i)
  | Some h :: rest =>
      match check_handlers (S i) rest with
      | Returned hs' => Returned (h :: hs')
      | Panicked m => Panicked m
      end
  end.

(** [NewMessageHandlerChain(first, others...)].  An interface value is
    [None] when nil.  The [handlers] field is written only here, so a chain
    stores handlers that are not nil. *)
Definition NewMessageHandlerChain {St : Type} (first : option (Messenger St))
    (others : list (option (Messenger St)))
    : Outcome (MessageHandlerChain St) :=
  match check_handlers 0 (first :: others) with
  | Returned hs => Returned (mkChain hs)
  | Panicked m => Panicked m
  end.

(* ================================================================== *)
(** ** Collaborators *)

(** [sdk.Handler] and [baseapp.MsgServiceHandler]: a handler returns a
    result with a nil error, or an error (its result is then dropped by
    every caller in this file). *)
Definition Handler (St : Type) : Type := sdk.Msg -> M St (sdk.Result + error).

(** [msgEncoder]. *)
Record msgEncoder (St : Type) : Type := mkEncoder {
  Encode : sdk.AccAddress -> string -> wasmvmtypes.CosmosMsg ->
           M St (list sdk.Msg * option error)
}.

(** [sdk.Router], the legacy route table; [Route] takes the context and
    returns a handler, or nil. *)
Record Router (St : Type) : Type := mkRouter {
  Route : string -> M St (option (Handler St))
}.

(** [baseapp.MsgServiceRouter]; [Handler(msg)] takes no context and
    returns a handler, or nil. *)
Record MsgServiceRouter (St : Type) : Type := mkMsgServiceRouter {
  msr_Handler : sdk.Msg -> option (Handler St)
}.

(** The methods of [types.ChannelKeeper] the file calls. *)
Record ChannelKeeper (St : Type) : Type := mkChannelKeeper {
  GetNextSequenceSend : string -> string -> M St (N * bool);
  GetChannel : string -> string -> M St (channeltypes.Channel * bool);
  SendPacket : option channeltypes.Capability -> channeltypes.Packet ->
               M St (option error)
}.

(** The method of [types.CapabilityKeeper] the file calls. *)
Record CapabilityKeeper (St : Type) : Type := mkCapabilityKeeper {
  GetCapability : string -> M St (option channeltypes.Capability * bool)
}.

(** [types.Burner]. *)
Record Burner (St : Type) : Type := mkBurner {
  BurnCoins : string -> sdk.Coins -> M St (option error);
  SendCoinsFromAccountToModule :
    sdk.AccAddress -> string -> sdk.Coins -> M St (option error)
}.

(** A key or value given to the logger. *)
Inductive LogField : Type :=
| LogString (s : string)
| LogCoins (c : sdk.Coins).

(** [moduleLogger(ctx)], seen through its method [Info]. *)
Record Logger (St : Type) : Type := mkLogger {
  Info : string -> list LogField -> M St unit
}.

(* ================================================================== *)
(** ** The handlers *)

Section Handlers.

Variable St : Type.

(** Names of the package that the file uses and other files define. *)
Variable ModuleName : string.
Variable convertWasmCoinsToSdkCoins :
  list wasmvmtypes.Coin -> sdk.Coins * option error.
Variable convertWasmIBCTimeoutHeightToCosmosHeight :
  option wasmvmtypes.IBCTimeoutBlock -> channeltypes.Height.
Variable moduleLogger : Logger St.

(** [host.ChannelCapabilityPath] of ibc-go. *)
Variable ChannelCapabilityPath : string -> string -> string.

(** *** SDKMessageHandler

    [msgRouter] is a pointer, [None] when nil; [router] and [encoders] are
    interface values, taken to be set. *)

Record SDKMessageHandler : Type := mkSDKMessageHandler {
  router : Router St;
  msgRouter : option (MsgServiceRouter St);
  encoders : msgEncoder St
}.

Definition NewSDKMessageHandler (router : Router St)
    (msgRouter : option (MsgServiceRouter St)) (encoders : msgEncoder St)
    : SDKMessageHandler :=
  mkSDKMessageHandler router msgRouter encoders.

(** The loop over [msg.GetSigners()]: the error of the first signer that
    is not the contract. *)
Fixpoint check_signers (signers : list sdk.AccAddress)
    (contractAddr : sdk.AccAddress) : option error :=
  match signers with
  | [] => None
  | acct :: rest =>
      if negb (sdk.Equals acct contractAddr)
      then Some (Wrap (Root ErrUnauthorized) "contract doesn't have permission")
      else check_signers rest contractAddr
  end.

Definition handleSdkMessage (h : SDKMessageHandler)
    (contractAddr : sdk.AccAddress) (msg : sdk.Msg)
    : M St (sdk.Result + error) :=
  match sdk.ValidateBasic msg with
  | Some err => ret (inr err)
  | None =>
      match check_signers (sdk.GetSigners msg) contractAddr with
      | Some err => ret (inr err)
      | None =>
          match msgRouter h with
          | None => ret (inr (Wrap (Root ErrPanic) ">>> msgRouter is nil!!!"))
          | Some mr =>
              match msr_Handler mr msg with
              | Some handler => handler msg
              | None =>
                  match sdk.LegacyRoute msg with
                  | Some route =>
                      handler <- Route (router h) route ;;
                      match handler with
                      | None =>
                          ret (inr (Wrap (Root ErrUnknownRequest)
                                 ("unrecognized message route: " ++ route
                                    ++ "; message")))
                      | Some handler => handler msg
                      end
                  | None =>
                      ret (inr (Wrap (Root ErrUnknownRequest)
                             ("can't route message " ++ sdk.Format msg)))
                  end
              end
          end
      end
  end.

(** The loop of [SDKMessageHandler.DispatchMsg] over the encoded
    messages, with the [events] and [data] gathered so far. *)
Fixpoint dispatch_loop (h : SDKMessageHandler) (contractAddr : sdk.AccAddress)
    (sdkMsgs : list sdk.Msg) (events : list sdk.Event) (data : list (list byte))
    : M St DispatchResult :=
  match sdkMsgs with
  | [] => ret (events, data, None)
  | sdkMsg :: rest =>
      r <- handleSdkMessage h contractAddr sdkMsg ;;
      match r with
      | inr err => ret ([], [], Some err)
      | inl res =>
          dispatch_loop h contractAddr rest
            (events ++ sdk.Events res) (data ++ [sdk.Data res])
      end
  end.

Definition SDKMessageHandler_DispatchMsg (h : SDKMessageHandler)
    : Messenger St :=
  fun contractAddr contractIBCPortID msg =>
    '(sdkMsgs, err) <- Encode (encoders h) contractAddr contractIBCPortID msg ;;
    match err with
    | Some e => ret ([], [], Some e)
    | None => dispatch_loop h contractAddr sdkMsgs [] []
    end.

(** *** IBCRawPacketHandler *)

Record IBCRawPacketHandler : Type := mkIBCRawPacketHandler {
  channelKeeper : ChannelKeeper St;
  capabilityKeeper : CapabilityKeeper St
}.

Definition NewIBCRawPacketHandler (chk : ChannelKeeper St)
    (cak : CapabilityKeeper St) : IBCRawPacketHandler :=
  mkIBCRawPacketHandler chk cak.

(** [msg.IBC.SendPacket] when neither pointer is nil. *)
Definition send_packet_of (msg : wasmvmtypes.CosmosMsg)
    : option wasmvmtypes.SendPacketMsg :=
  match wasmvmtypes.IBC msg with
  | None => None
  | Some ibc => wasmvmtypes.SendPacket ibc
  end.

Definition IBCRawPacketHandler_DispatchMsg (h : IBCRawPacketHandler)
    : Messenger St :=
  fun _ contractIBCPortID msg =>
    match send_packet_of msg with
    | None => ret ([], [], Some (Root ErrUnknownMsg))
    | Some sendPacket =>
        if String.eqb contractIBCPortID ""
        then ret ([], [], Some (Wrap (Root ErrUnsupportedForContract)
                                  "ibc not supported"))
        else
          let contractIBCChannelID := wasmvmtypes.ChannelID sendPacket in
          if String.eqb contractIBCChannelID ""
          then ret ([], [], Some (Wrap (Root ErrEmpty) "ibc channel"))
          else
            '(sequence, found) <-
              GetNextSequenceSend (channelKeeper h)
                contractIBCPortID contractIBCChannelID ;;
            if negb found
            then ret ([], [], Some (Wrap (Root ErrSequenceSendNotFound)
                        ("source port: " ++ contractIBCPortID
                           ++ ", source channel: " ++ contractIBCChannelID)))
            else
              '(channelInfo, ok) <-
                GetChannel (channelKeeper h)
                  contractIBCPortID contractIBCChannelID ;;
              if negb ok
              then ret ([], [],
                        Some (Wrap (Root ErrInvalidChannel) "not found"))
              else
                '(channelCap, ok) <-
                  GetCapability (capabilityKeeper h)
                    (ChannelCapabilityPath contractIBCPortID
                       contractIBCChannelID) ;;
                if negb ok
                then ret ([], [], Some (Wrap (Root ErrChannelCapabilityNotFound)
                            "module does not own channel capability"))
                else
                  let packet :=
                    channeltypes.NewPacket
                      (wasmvmtypes.Data sendPacket)
                      sequence
                      contractIBCPortID
                      contractIBCChannelID
                      (channeltypes.PortId
                         (channeltypes.Counterparty_ channelInfo))
                      (channeltypes.ChannelId
                         (channeltypes.Counterparty_ channelInfo))
                      (convertWasmIBCTimeoutHeightToCosmosHeight
                         (wasmvmtypes.Block (wasmvmtypes.Timeout_ sendPacket)))
                      (wasmvmtypes.Timestamp
                         (wasmvmtypes.Timeout_ sendPacket)) in
                  err <- SendPacket (channelKeeper h) channelCap packet ;;
                  ret ([], [], err)
    end.

(** *** The burn handler *)

(** [msg.Bank.Burn] when neither pointer is nil. *)
Definition burn_of (msg : wasmvmtypes.CosmosMsg) : option wasmvmtypes.BurnMsg :=
  match wasmvmtypes.Bank msg with
  | None => None
  | Some bank => wasmvmtypes.Burn bank
  end.

Definition NewBurnCoinMessageHandler (burner : Burner St) : Messenger St :=
  fun contractAddr _ msg =>
    match burn_of msg with
    | Some burn =>
        let '(coins, err) :=
          convertWasmCoinsToSdkCoins (wasmvmtypes.Amount_ burn) in
        match err with
        | Some e => ret ([], [], Some e)
        | None =>
            err <- SendCoinsFromAccountToModule burner contractAddr
                     ModuleName coins ;;
            match err with
            | Some e => ret ([], [], Some (Wrap e "transfer to module"))
            | None =>
                err <- BurnCoins burner ModuleName coins ;;
                match err with
                | Some e => ret ([], [], Some (Wrap e "burn coins"))
                | None =>
                    _ <- Info moduleLogger "Burned"
                           [LogString "amount"; LogCoins coins] ;;
                    ret ([], [], None)
                end
            end
        end
    | None => ret ([], [], Some (Root ErrUnknownMsg))
    end.

(** *** The default chain *)

(** What [handler_plugin_encoders.go] provides: the encoder sets, the
    default one, the overlay of a custom set (a pointer, maybe nil) on
    another, and the [Encode] method that makes a set a [msgEncoder]. *)
Variable MessageEncoders : Type.
Variables AnyUnpacker ICS20TransferPortSource : Type.
Variable DefaultEncoders :
  AnyUnpacker -> ICS20TransferPortSource -> MessageEncoders.
Variable Merge : MessageEncoders -> option MessageEncoders -> MessageEncoders.
Variable MessageEncoders_Encode : MessageEncoders -> msgEncoder St.

Definition NewDefaultMessageHandler (router : Router St)
    (msgRouter : option (MsgServiceRouter St))
    (channelKeeper : ChannelKeeper St) (capabilityKeeper : CapabilityKeeper St)
    (bankKeeper : Burner St) (unpacker : AnyUnpacker)
    (portSource : ICS20TransferPortSource)
    (customEncoders : list (option MessageEncoders))
    : Outcome (MessageHandlerChain St) :=
  let encoders :=
    fold_left Merge customEncoders (DefaultEncoders unpacker portSource) in
  NewMessageHandlerChain
    (Some (SDKMessageHandler_DispatchMsg
             (NewSDKMessageHandler router msgRouter
                (MessageEncoders_Encode encoders))))
    [ Some (IBCRawPacketHandler_DispatchMsg
              (NewIBCRawPacketHandler channelKeeper capabilityKeeper));
      Some (NewBurnCoinMessageHandler bankKeeper) ].

End Handlers.

Arguments handleSdkMessage {St} h contractAddr msg.
Arguments dispatch_loop {St} h contractAddr sdkMsgs events data.
Arguments SDKMessageHandler_DispatchMsg {St} h.

(* ================================================================== *)
(** ** Vocabulary of the properties *)

(** [err] is the unknown-message signal, by the test the chain itself
    applies. *)
Definition is_unknown_msg (err : option error) : bool :=
  match err with
  | None => false
  | Some e => errors_Is e ErrUnknownMsg
  end.

(** The handlers [hs], tried in order from store [s], all report the
    unknown-message signal; the store they leave behind. *)
Fixpoint all_report_unknown {St : Type} (hs : list (Messenger St))
    (contractAddr : sdk.AccAddress) (contractIBCPortID : string)
    (msg : wasmvmtypes.CosmosMsg) (s : St) : option St :=
  match hs with
  | [] => Some s
  | h :: rest =>
      let '((_, _, err), s1) := h contractAddr contractIBCPortID msg s in
      if is_unknown_msg err
      then all_report_unknown rest contractAddr contractIBCPortID msg s1
      else None
  end.

(** The declared signers are exactly the set [{contractAddr}]. *)
Definition signers_are_exactly (contractAddr : sdk.AccAddress)
    (signers : list sdk.AccAddress) : bool :=
  match signers with
  | [] => false
  | _ => forallb (fun acct => sdk.Equals acct contractAddr) signers
  end.

(** The encoded messages handled one after another, up to the first
    failure: the results of those that succeeded before it, and the
    failure if there is one. *)
Fixpoint handle_in_order {St : Type} (h : SDKMessageHandler St)
    (contractAddr : sdk.AccAddress) (sdkMsgs : list sdk.Msg)
    : M St (list sdk.Result * option error) :=
  match sdkMsgs with
  | [] => ret ([], None)
  | sdkMsg :: rest =>
      r <- handleSdkMessage h contractAddr sdkMsg ;;
      match r with
      | inr err => ret ([], Some err)
      | inl res =>
          '(results, err) <- handle_in_order h contractAddr rest ;;
          ret (res :: results, err)
      end
  end.

(** *** A record of the calls made to the collaborators

    A collaborator over a store [St] is wrapped into one over
    [St * list Call] that behaves the same on [St] and appends each call
    it receives, with its arguments, to the record. *)
Inductive Call : Type :=
| Call_DispatchMsg (position : nat)
| Call_GetNextSequenceSend (portID channelID : string)
| Call_GetChannel (portID channelID : string)
| Call_GetCapability (name : string)
| Call_SendPacket (channelCap : option channeltypes.Capability)
    (packet : channeltypes.Packet)
| Call_SendCoinsFromAccountToModule (senderAddr : sdk.AccAddress)
    (recipientModule : string) (amt : sdk.Coins)
| Call_BurnCoins (moduleName : string) (amt : sdk.Coins)
| Call_Info (msg : string) (keyvals : list LogField).

Definition recorded {St A : Type} (c : Call) (f : M St A)
    : M (St * list Call) A :=
  fun '(s, calls) => let (a, s') := f s in (a, (s', calls ++ [c])).

Definition recorded_ChannelKeeper {St : Type} (k : ChannelKeeper St)
    : ChannelKeeper (St * list Call) :=
  {| GetNextSequenceSend := fun p c =>
       recorded (Call_GetNextSequenceSend p c) (GetNextSequenceSend k p c);
     GetChannel := fun p c =>
       recorded (Call_GetChannel p c) (GetChannel k p c);
     SendPacket := fun cap packet =>
       recorded (Call_SendPacket cap packet) (SendPacket k cap packet) |}.

Definition recorded_CapabilityKeeper {St : Type} (k : CapabilityKeeper St)
    : CapabilityKeeper (St * list Call) :=
  {| GetCapability := fun name =>
       recorded (Call_GetCapability name) (GetCapability k name) |}.

Definition recorded_Burner {St : Type} (b : Burner St)
    : Burner (St * list Call) :=
  {| BurnCoins := fun m amt =>
       recorded (Call_BurnCoins m amt) (BurnCoins b m amt);
     SendCoinsFromAccountToModule := fun a m amt =>
       recorded (Call_SendCoinsFromAccountToModule a m amt)
         (SendCoinsFromAccountToModule b a m amt) |}.

Definition recorded_Logger {St : Type} (l : Logger St)
    : Logger (St * list Call) :=
  {| Info := fun msg keyvals =>
       recorded (Call_Info msg keyvals) (Info l msg keyvals) |}.

(** The handlers of a chain, each recording its position (counted from
    [i]) when it is invoked. *)
Fixpoint recorded_handlers {St : Type} (i : nat) (hs : list (Messenger St))
    : list (Messenger (St * list Call)) :=
  match hs with
  | [] => []
  | h :: rest =>
      (fun contractAddr contractIBCPortID msg =>
         recorded (Call_DispatchMsg i) (h contractAddr contractIBCPortID msg))
      :: recorded_handlers (S i) rest
  end.

(** The calls of a record that reach the coin ledger. *)
Definition is_ledger_call (c : Call) : bool :=
  match c with
  | Call_SendCoinsFromAccountToModule _ _ _ | Call_BurnCoins _ _ => true
  | _ => false
  end.

(** The calls of a record that submit a packet. *)
Definition is_SendPacket (c : Call) : bool :=
  match c with
  | Call_SendPacket _ _ => true
  | _ => false
  end.

(** Position [k] holds the first nil handler of [hs]. *)
Definition first_nil_at {St : Type} (hs : list (option (Messenger St)))
    (k : nat) : Prop :=
  nth_error hs k = Some None
  /\ forall j, j < k -> exists h, nth_error hs j = Some (Some h).

(** The IBC handler over two keepers, and over the same keepers wrapped to
    record their calls. *)
Definition ibc_plain {St : Type}
    (convertWasmIBCTimeoutHeightToCosmosHeight :
       option wasmvmtypes.IBCTimeoutBlock -> channeltypes.Height)
    (ChannelCapabilityPath : string -> string -> string)
    (chk : ChannelKeeper St) (cak : CapabilityKeeper St) : Messenger St :=
  IBCRawPacketHandler_DispatchMsg
    convertWasmIBCTimeoutHeightToCosmosHeight ChannelCapabilityPath
    (NewIBCRawPacketHandler chk cak).

Definition ibc_recorded {St : Type}
    (convertWasmIBCTimeoutHeightToCosmosHeight :
       option wasmvmtypes.IBCTimeoutBlock -> channeltypes.Height)
    (ChannelCapabilityPath : string -> string -> string)
    (chk : ChannelKeeper St) (cak : CapabilityKeeper St)
    : Messenger (St * list Call) :=
  IBCRawPacketHandler_DispatchMsg
    convertWasmIBCTimeoutHeightToCosmosHeight ChannelCapabilityPath
    (NewIBCRawPacketHandler
       (recorded_ChannelKeeper chk) (recorded_CapabilityKeeper cak)).

(** The burn handler over a ledger and a logger, and over the same ones
    wrapped to record their calls. *)
Definition burn_plain {St : Type} (ModuleName : string)
    (convertWasmCoinsToSdkCoins :
       list wasmvmtypes.Coin -> sdk.Coins * option error)
    (moduleLogger : Logger St) (burner : Burner St) : Messenger St :=
  NewBurnCoinMessageHandler ModuleName convertWasmCoinsToSdkCoins
    moduleLogger burner.

Definition burn_recorded {St : Type} (ModuleName : string)
    (convertWasmCoinsToSdkCoins :
       list wasmvmtypes.Coin -> sdk.Coins * option error)
    (moduleLogger : Logger St) (burner : Burner St)
    : Messenger (St * list Call) :=
  NewBurnCoinMessageHandler ModuleName convertWasmCoinsToSdkCoins
    (recorded_Logger moduleLogger) (recorded_Burner burner).

(** Unfolds the IBC handler over recording keepers. *)
Ltac step_ibc :=
  unfold ibc_recorded, IBCRawPacketHandler_DispatchMsg;
  cbn [channelKeeper capabilityKeeper NewIBCRawPacketHandler
       recorded_ChannelKeeper recorded_CapabilityKeeper
       GetNextSequenceSend GetChannel GetCapability SendPacket].

(* ================================================================== *)
(** ** A small deployment

    Concrete collaborators over a store that counts the writes made to
    it, used to run the handlers on examples. *)
Module Scenario.

Definition Store : Type := nat.

Definition C1 : sdk.AccAddress := [x01].
Definition C2 : sdk.AccAddress := [x02].

Definition ModuleName : string := "wasm".

(** A decimal amount, or nothing when the string is not a number. *)
Definition convertCoin (c : wasmvmtypes.Coin) : option sdk.Coin :=
  match NilEmpty.uint_of_string (wasmvmtypes.Amount c) with
  | Some u => Some (sdk.mkCoin (wasmvmtypes.Denom c) (Z.of_uint u))
  | None => None
  end.

Fixpoint convertCoins (cs : list wasmvmtypes.Coin) : sdk.Coins * option error :=
  match cs with
  | [] => ([], None)
  | c :: rest =>
      match convertCoin c with
      | None => ([], Some (Root (ErrOther "invalid amount")))
      | Some k =>
          match convertCoins rest with
          | (ks, None) => (k :: ks, None)
          | (_, Some e) => ([], Some e)
          end
      end
  end.

Definition convertHeight (b : option wasmvmtypes.IBCTimeoutBlock)
    : channeltypes.Height :=
  match b with
  | None => channeltypes.mkHeight 0 0
  | Some b =>
      channeltypes.mkHeight (wasmvmtypes.Revision b) (wasmvmtypes.Height b)
  end.

Definition capabilityPath (portID channelID : string) : string :=
  "capabilities/ports/" ++ portID ++ "/channels/" ++ channelID.

Definition logger : Logger Store :=
  {| Info := fun _ _ => ret tt |}.

(** A ledger where every call succeeds and writes once. *)
Definition bank : Burner Store :=
  {| BurnCoins := fun _ _ s => (None, S s);
     SendCoinsFromAccountToModule := fun _ _ _ s => (None, S s) |}.

(** A ledger where the sender never has the funds. *)
Definition emptyBank : Burner Store :=
  {| BurnCoins := fun _ _ s => (None, S s);
     SendCoinsFromAccountToModule := fun _ _ _ s =>
       (Some (Root (ErrOther "insufficient funds")), s) |}.

Definition counterparty : channeltypes.Counterparty :=
  channeltypes.mkCounterparty "transfer" "channel-7".

Definition openChannel : channeltypes.Channel :=
  channeltypes.mkChannel 3 1 counterparty ["connection-0"] "ics20-1".

(** A channel keeper that knows every channel, at sequence 42. *)
Definition channels : ChannelKeeper Store :=
  {| GetNextSequenceSend := fun _ _ => ret (42%N, true);
     GetChannel := fun _ _ => ret (openChannel, true);
     SendPacket := fun _ _ s => (None, S s) |}.

Definition capabilities : CapabilityKeeper Store :=
  {| GetCapability := fun _ =>
       ret (Some (channeltypes.mkCapability 5), true) |}.

(** A capability keeper that owns nothing. *)
Definition noCapabilities : CapabilityKeeper Store :=
  {| GetCapability := fun _ => ret (None, false) |}.

Definition transferred : sdk.Event := sdk.mkEvent "transfer" [("amount", "1")].

(** A handler that succeeds, writes once and answers with the type URL of
    the message as data. *)
Definition bankHandler : Handler Store :=
  fun msg s =>
    (inl (sdk.mkResult (list_byte_of_string (sdk.TypeURL msg)) ""
            [transferred]),
     S s).

(** The service router knows one kind of message. *)
Definition serviceRouter : MsgServiceRouter Store :=
  {| msr_Handler := fun msg =>
       if String.eqb (sdk.TypeURL msg) "/cosmos.bank.v1beta1.MsgSend"
       then Some bankHandler else None |}.

(** The legacy router knows one route. *)
Definition legacyRouter : Router Store :=
  {| Route := fun path =>
       ret (if String.eqb path "bank" then Some bankHandler else None) |}.

(** An encoder that yields a fixed batch for custom messages and does not
    know the others. *)
Definition encoderOf (batch : list sdk.Msg) : msgEncoder Store :=
  {| Encode := fun _ _ msg =>
       match wasmvmtypes.Custom msg with
       | Some _ => ret (batch, None)
       | None => ret ([], Some (Wrap (Root ErrUnknownMsg) "unknown variant"))
       end |}.

Definition custom : wasmvmtypes.CosmosMsg :=
  wasmvmtypes.mkCosmosMsg None None (Some "{}").

(** A bank send signed by [C1], known to the service router. *)
Definition sendFromC1 : sdk.Msg :=
  sdk.mkMsg "/cosmos.bank.v1beta1.MsgSend" None [C1] (Some "bank")
    "{FromAddress:C1}".

(** An operation that asks for the signatures of [C1] and [C2]. *)
Definition sendFromBoth : sdk.Msg :=
  sdk.mkMsg "/cosmos.bank.v1beta1.MsgMultiSend" None [C1; C2] (Some "bank")
    "{Inputs:[C1 C2]}".

(** An operation that declares no signer. *)
Definition unsigned : sdk.Msg :=
  sdk.mkMsg "/cosmos.bank.v1beta1.MsgSend" None [] (Some "bank") "{}".

(** A legacy operation signed by [C1], unknown to the service router. *)
Definition legacySend : sdk.Msg :=
  sdk.mkMsg "/legacy.MsgSend" None [C1] (Some "bank") "{legacy}".


(** A legacy operation on a route nobody registered. *)
Definition legacyVote : sdk.Msg :=
  sdk.mkMsg "/legacy.MsgVote" None [C1] (Some "gov") "{vote}".

(** [BankBurn{amount: [100 uatom]}]. *)
Definition burn100 : wasmvmtypes.CosmosMsg :=
  wasmvmtypes.mkCosmosMsg
    (Some (wasmvmtypes.mkBankMsg None
             (Some (wasmvmtypes.mkBurnMsg [wasmvmtypes.mkCoin "uatom" "100"]))))
    None None.

Definition packetMsg : wasmvmtypes.SendPacketMsg :=
  wasmvmtypes.mkSendPacketMsg "channel-0" [x01; x02]
    (wasmvmtypes.mkIBCTimeout (Some (wasmvmtypes.mkIBCTimeoutBlock 1 1000)) 0).

(** [IBCSendPacket] on channel-0. *)
Definition sendPacket : wasmvmtypes.CosmosMsg :=
  wasmvmtypes.mkCosmosMsg None
    (Some (wasmvmtypes.mkIBCMsg (Some packetMsg) None)) None.

Definition sdkHandler (msgRouter : option (MsgServiceRouter Store))
    (batch : list sdk.Msg) : SDKMessageHandler Store :=
  NewSDKMessageHandler legacyRouter msgRouter (encoderOf batch).

Definition ibcHandler : Messenger Store :=
  ibc_plain convertHeight capabilityPath channels capabilities.

Definition burnHandler : Messenger Store :=
  burn_plain ModuleName convertCoins logger bank.

(** The handlers of the default chain, in its order. *)
Definition defaultHandlers : list (Messenger Store) :=
  [ SDKMessageHandler_DispatchMsg
      (sdkHandler (Some serviceRouter) [sendFromC1]);
    ibcHandler;
    burnHandler ].

(** A message that carries a send-packet part and a burn part at once,
    as the struct allows. *)
Definition packetAndBurn : wasmvmtypes.CosmosMsg :=
  wasmvmtypes.mkCosmosMsg
    (Some (wasmvmtypes.mkBankMsg None
             (Some (wasmvmtypes.mkBurnMsg [wasmvmtypes.mkCoin "uatom" "100"]))))
    (Some (wasmvmtypes.mkIBCMsg (Some packetMsg) None)) None.

End Scenario.

(* ================================================================== *)
(** ** Properties of the chain *)

Section ChainFacts.

Variable St : Type.
Variables (contractAddr : sdk.AccAddress) (contractIBCPortID : string).
Variable msg : wasmvmtypes.CosmosMsg.

(** Handlers that report the unknown-message signal are passed over: the
    loop goes on with the handlers after them. *)
Lemma chain_loop_passes_over (pre rest : list (Messenger St)) :
  forall s s1,
    all_report_unknown pre contractAddr contractIBCPortID msg s = Some s1 ->
    chain_loop (pre ++ rest) contractAddr contractIBCPortID msg s
    = chain_loop rest contractAddr contractIBCPortID msg s1.
Proof.
  induction pre as [|h pre IH]; intros s s1 Hskip; simpl in *.
  - now inversion Hskip.
  - unfold bind.
    destruct (h contractAddr contractIBCPortID msg s) as [[[ev d] err] s'].
    destruct err as [e|]; simpl in Hskip; [|discriminate].
    destruct (errors_Is e ErrUnknownMsg); [|discriminate].
    now apply IH.
Qed.

(** A handler whose error is nil, or is not the unknown-message signal,
    ends the loop with its own result. *)
Lemma chain_loop_stops (h : Messenger St) (rest : list (Messenger St)) :
  forall s events data err s1,
    h contractAddr contractIBCPortID msg s = ((events, data, err), s1) ->
    is_unknown_msg err = false ->
    chain_loop (h :: rest) contractAddr contractIBCPortID msg s
    = ((events, data, err), s1).
Proof.
  intros s events data err s1 Hh Hdec; simpl; unfold bind.
  rewrite Hh.
  destruct err as [e|]; simpl in *; [|reflexivity].
  now rewrite Hdec.
Qed.

(** What the wrapped handlers add: the positions invoked. *)
Lemma recorded_passes_over (pre rest : list (Messenger St)) :
  forall i s s1 calls,
    all_report_unknown pre contractAddr contractIBCPortID msg s = Some s1 ->
    chain_loop (recorded_handlers i (pre ++ rest))
      contractAddr contractIBCPortID msg (s, calls)
    = chain_loop (recorded_handlers (i + List.length pre) rest)
        contractAddr contractIBCPortID msg
        (s1, calls ++ map Call_DispatchMsg (seq i (List.length pre))).
Proof.
  induction pre as [|h pre IH]; intros i s s1 calls Hskip; simpl in *.
  - inversion Hskip; subst.
    now rewrite Nat.add_0_r, app_nil_r.
  - unfold bind, recorded.
    destruct (h contractAddr contractIBCPortID msg s) as [[[ev d] err] s'].
    destruct err as [e|]; simpl in Hskip; [|discriminate].
    destruct (errors_Is e ErrUnknownMsg); [|discriminate].
    rewrite (IH (S i) s' s1 (calls ++ [Call_DispatchMsg i]) Hskip).
    rewrite <- app_assoc; simpl.
    now rewrite Nat.add_succ_r.
Qed.

Lemma recorded_stops (h : Messenger St) (rest : list (Messenger St)) :
  forall i s events data err s1 calls,
    h contractAddr contractIBCPortID msg s = ((events, data, err), s1) ->
    is_unknown_msg err = false ->
    chain_loop (recorded_handlers i (h :: rest))
      contractAddr contractIBCPortID msg (s, calls)
    = ((events, data, err), (s1, calls ++ [Call_DispatchMsg i])).
Proof.
  intros i s events data err s1 calls Hh Hdec; simpl; unfold bind, recorded.
  rewrite Hh.
  destruct err as [e|]; simpl in *; [|reflexivity].
  now rewrite Hdec.
Qed.

(** With no handler left the loop ends with the wrapped sentinel. *)
Lemma chain_loop_exhausted (hs : list (Messenger St)) :
  forall s s1,
    all_report_unknown hs contractAddr contractIBCPortID msg s = Some s1 ->
    chain_loop hs contractAddr contractIBCPortID msg s
    = (([], [], Some (Wrap (Root ErrUnknownMsg) "no handler found")), s1).
Proof.
  intros s s1 Hskip.
  rewrite <- (app_nil_r hs).
  now rewrite (chain_loop_passes_over hs [] s Hskip).
Qed.

(** Every chain is in one of two cases: all its handlers report the
    unknown-message signal, or a first one does not. *)
Lemma chain_cases (hs : list (Messenger St)) :
  forall s,
    (exists s1,
        all_report_unknown hs contractAddr contractIBCPortID msg s = Some s1)
    \/ (exists pre h post s1,
           hs = pre ++ h :: post
           /\ all_report_unknown pre contractAddr contractIBCPortID msg s
              = Some s1
           /\ is_unknown_msg
                (snd (fst (h contractAddr contractIBCPortID msg s1))) = false).
Proof.
  induction hs as [|h hs IH]; intros s.
  - left; now exists s.
  - destruct (h contractAddr contractIBCPortID msg s) as [[[ev d] err] s']
      eqn:Hh.
    destruct (is_unknown_msg err) eqn:Hu.
    + destruct (IH s') as [[s1 Hall]|[pre [h' [post [s1 [-> [Hpre Hdec]]]]]]].
      * left; exists s1; simpl; now rewrite Hh, Hu.
      * right; exists (h :: pre), h', post, s1.
        repeat split; [|exact Hdec].
        simpl; now rewrite Hh, Hu.
    + right; exists [], h, hs, s.
      repeat split; simpl; now rewrite Hh.
Qed.

(** C2.  The chain tries its handlers in list order and returns, as it
    is, the result of the first handler whose error is nil or is not the
    unknown-message signal: when the handlers [pre] all report the signal
    and the next handler [h] does not, the chain returns the events, data
    and error of [h], and leaves the store as [h] left it, whatever
    handlers [post] follow.  The record of invocations is the positions
    [0 .. length pre] in order: every handler up to [h] once, none of
    [post]. *)
Theorem chain_returns_first_decisive
    (pre post : list (Messenger St)) (h : Messenger St)
    (s s1 s2 : St) (events : list sdk.Event) (data : list (list byte))
    (err : option error) :
  all_report_unknown pre contractAddr contractIBCPortID msg s = Some s1 ->
  h contractAddr contractIBCPortID msg s1 = ((events, data, err), s2) ->
  is_unknown_msg err = false ->
  MessageHandlerChain_DispatchMsg (mkChain (pre ++ h :: post))
    contractAddr contractIBCPortID msg s
  = ((events, data, err), s2)
  /\ MessageHandlerChain_DispatchMsg
       (mkChain (recorded_handlers 0 (pre ++ h :: post)))
       contractAddr contractIBCPortID msg (s, [])
     = ((events, data, err),
        (s2, map Call_DispatchMsg (seq 0 (S (List.length pre))))).
Proof.
  intros Hskip Hh Hdec.
  unfold MessageHandlerChain_DispatchMsg; simpl handlers.
  split.
  - rewrite (chain_loop_passes_over pre (h :: post) s Hskip).
    now apply chain_loop_stops.
  - rewrite (recorded_passes_over pre (h :: post) 0 s [] Hskip).
    rewrite (recorded_stops h post (0 + List.length pre) s1 _ Hh Hdec).
    simpl app at 1.
    rewrite seq_S, map_app.
    reflexivity.
Qed.

(** C3, as the code has it.  When every handler reports the
    unknown-message signal, the chain returns no events, no data and the
    sentinel [ErrUnknownMsg] wrapped with the description "no handler
    found".  That error is not the bare sentinel, yet it is of the
    unknown-message kind: [errors.Is] finds [ErrUnknownMsg] in it, which
    is the very test by which a chain recognises the signal. *)
Theorem chain_exhausted_wraps_unknown_msg
    (hs : list (Messenger St)) (s s1 : St) :
  all_report_unknown hs contractAddr contractIBCPortID msg s = Some s1 ->
  exists e,
    MessageHandlerChain_DispatchMsg (mkChain hs)
      contractAddr contractIBCPortID msg s = (([], [], Some e), s1)
    /\ e = Wrap (Root ErrUnknownMsg) "no handler found"
    /\ e <> Root ErrUnknownMsg
    /\ errors_Is e ErrUnknownMsg = true
    /\ is_unknown_msg (Some e) = true.
Proof.
  intros Hskip.
  exists (Wrap (Root ErrUnknownMsg) "no handler found").
  unfold MessageHandlerChain_DispatchMsg; simpl handlers.
  rewrite (chain_loop_exhausted hs s Hskip).
  repeat split; try reflexivity.
  discriminate.
Qed.

End ChainFacts.

(* ================================================================== *)
(** ** Construction of a chain *)

Section ConstructionFacts.

Variable St : Type.

Lemma first_nil_exists (hs : list (option (Messenger St))) :
  In None hs -> exists k, first_nil_at hs k.
Proof.
  induction hs as [|o hs IH]; intros Hin; [destruct Hin|].
  destruct o as [h|].
  - destruct Hin as [Heq|Hin]; [discriminate|].
    destruct (IH Hin) as [k [Hk Hbefore]].
    exists (S k); split; [exact Hk|].
    intros [|j] Hj.
    + now exists h.
    + apply Hbefore; lia.
  - exists 0; split; [reflexivity|].
    intros j Hj; lia.
Qed.

Lemma check_handlers_panics (hs : list (option (Messenger St))) :
  forall i k,
    first_nil_at hs k ->
    check_handlers i hs
    = Panicked ("handler must not be nil at position : " ++ Sprintf_d (i + k)).
Proof.
  induction hs as [|o hs IH]; intros i k [Hk Hbefore].
  - destruct k; discriminate.
  - destruct k as [|k].
    + simpl in Hk; inversion Hk; subst; simpl.
      now rewrite Nat.add_0_r.
    + destruct (Hbefore 0) as [h Hh]; [lia|].
      simpl in Hh; inversion Hh; subst; simpl.
      rewrite (IH (S i) k).
      * now rewrite Nat.add_succ_r.
      * split; [exact Hk|].
        intros j Hj; apply (Hbefore (S j)); lia.
Qed.

Lemma check_handlers_returns (hs : list (option (Messenger St))) :
  forall i,
    ~ In None hs ->
    exists hs', check_handlers i hs = Returned hs' /\ map Some hs' = hs.
Proof.
  induction hs as [|o hs IH]; intros i Hnot.
  - now exists [].
  - destruct o as [h|]; [|exfalso; apply Hnot; now left].
    destruct (IH (S i)) as [hs' [Hc Hm]].
    + intros Hin; apply Hnot; now right.
    + exists (h :: hs'); simpl; rewrite Hc, Hm; auto.
Qed.

(** C9.  [NewMessageHandlerChain] panics as soon as its handler list
    holds a nil handler, at whatever position, and the panic names the
    first such position; the constructor takes no context and invokes no
    handler.  When no handler is nil it returns a chain that holds
    exactly the given handlers, in order, at least one. *)
Theorem NewMessageHandlerChain_rejects_nil
    (first : option (Messenger St)) (others : list (option (Messenger St))) :
  (In None (first :: others) ->
     exists m, NewMessageHandlerChain first others = Panicked m)
  /\ (forall k, first_nil_at (first :: others) k ->
        NewMessageHandlerChain first others
        = Panicked ("handler must not be nil at position : " ++ Sprintf_d k))
  /\ (~ In None (first :: others) ->
        exists hs, NewMessageHandlerChain first others = Returned (mkChain hs)
                   /\ map Some hs = first :: others
                   /\ hs <> []).
Proof.
  unfold NewMessageHandlerChain.
  split; [|split].
  - intros Hin.
    destruct (first_nil_exists _ Hin) as [k Hk].
    rewrite (check_handlers_panics 0 Hk).
    eexists; reflexivity.
  - intros k Hk.
    now rewrite (check_handlers_panics 0 Hk).
  - intros Hnot.
    destruct (check_handlers_returns _ 0 Hnot) as [hs [Hc Hm]].
    exists hs; rewrite Hc.
    repeat split; [exact Hm|].
    intros ->; discriminate.
Qed.

(** The default chain is always built, with the SDK handler first, the
    IBC packet handler second and the burn handler last. *)
Remark NewDefaultMessageHandler_order
    (ModuleName : string)
    (convertWasmCoinsToSdkCoins :
       list wasmvmtypes.Coin -> sdk.Coins * option error)
    (convertWasmIBCTimeoutHeightToCosmosHeight :
       option wasmvmtypes.IBCTimeoutBlock -> channeltypes.Height)
    (moduleLogger : Logger St)
    (ChannelCapabilityPath : string -> string -> string)
    (MessageEncoders AnyUnpacker ICS20TransferPortSource : Type)
    (DefaultEncoders :
       AnyUnpacker -> ICS20TransferPortSource -> MessageEncoders)
    (Merge : MessageEncoders -> option MessageEncoders -> MessageEncoders)
    (MessageEncoders_Encode : MessageEncoders -> msgEncoder St)
    legacy service channelKeeper capabilityKeeper bankKeeper
    unpacker portSource customEncoders :
  exists sdkHandler,
    NewDefaultMessageHandler ModuleName convertWasmCoinsToSdkCoins
      convertWasmIBCTimeoutHeightToCosmosHeight moduleLogger
      ChannelCapabilityPath DefaultEncoders Merge MessageEncoders_Encode
      legacy service channelKeeper capabilityKeeper bankKeeper
      unpacker portSource customEncoders
    = Returned
        (mkChain
           [ SDKMessageHandler_DispatchMsg sdkHandler;
             ibc_plain convertWasmIBCTimeoutHeightToCosmosHeight
               ChannelCapabilityPath channelKeeper capabilityKeeper;
             burn_plain ModuleName convertWasmCoinsToSdkCoins
               moduleLogger bankKeeper ])
    /\ router sdkHandler = legacy
    /\ msgRouter sdkHandler = service.
Proof.
  eexists; repeat split.
Qed.

End ConstructionFacts.

(* ================================================================== *)
(** ** Properties of the SDK message handler *)

Section SDKFacts.

Variable St : Type.
Variable h : SDKMessageHandler St.
Variable contractAddr : sdk.AccAddress.

Lemma check_signers_foreign (signers : list sdk.AccAddress) :
  (exists acct, In acct signers /\ sdk.Equals acct contractAddr = false) ->
  check_signers signers contractAddr
  = Some (Wrap (Root ErrUnauthorized) "contract doesn't have permission").
Proof.
  induction signers as [|a signers IH]; intros [acct [Hin Hneq]].
  - destruct Hin.
  - simpl.
    destruct (sdk.Equals a contractAddr) eqn:Ha; simpl; [|reflexivity].
    apply IH.
    destruct Hin as [->|Hin]; [congruence|].
    now exists acct.
Qed.

Lemma check_signers_own (signers : list sdk.AccAddress) :
  (forall acct, In acct signers -> sdk.Equals acct contractAddr = true) ->
  check_signers signers contractAddr = None.
Proof.
  induction signers as [|a signers IH]; intros Hall; simpl; [reflexivity|].
  rewrite (Hall a (or_introl eq_refl)); simpl.
  apply IH; intros acct Hin; apply Hall; now right.
Qed.

(** The loop of [DispatchMsg] gathers what [handle_in_order] returns:
    nothing on a failure, otherwise the events and data of the results
    appended, in order, to those gathered before. *)
Lemma dispatch_loop_gathers (sdkMsgs : list sdk.Msg) :
  forall events data s,
    dispatch_loop h contractAddr sdkMsgs events data s
    = let '((results, err), s') := handle_in_order h contractAddr sdkMsgs s in
      (match err with
       | Some e => ([], [], Some e)
       | None => (events ++ List.concat (map sdk.Events results),
                  data ++ map sdk.Data results, None)
       end, s').
Proof.
  induction sdkMsgs as [|m sdkMsgs IH]; intros events data s; simpl.
  - unfold ret; now rewrite !app_nil_r.
  - unfold bind.
    destruct (handleSdkMessage h contractAddr m s) as [[res|e] s1]; simpl.
    + rewrite IH.
      destruct (handle_in_order h contractAddr sdkMsgs s1)
        as [[results [e|]] s2]; simpl; unfold ret; [reflexivity|].
      now rewrite <- !app_assoc.
    + reflexivity.
Qed.

(** A batch whose first failure is at [op]. *)
Lemma handle_in_order_fails_at (pre post : list sdk.Msg) (op : sdk.Msg) :
  forall s results s1 e s2,
    handle_in_order h contractAddr pre s = ((results, None), s1) ->
    handleSdkMessage h contractAddr op s1 = (inr e, s2) ->
    handle_in_order h contractAddr (pre ++ op :: post) s
    = ((results, Some e), s2).
Proof.
  induction pre as [|m pre IH]; intros s results s1 e s2 Hpre Hop; simpl in *.
  - unfold ret in Hpre; inversion Hpre; subst.
    unfold bind; now rewrite Hop.
  - unfold bind in *.
    destruct (handleSdkMessage h contractAddr m s) as [[res|e'] s'];
      [|unfold ret in Hpre; inversion Hpre].
    destruct (handle_in_order h contractAddr pre s') as [[rs oe] s''] eqn:Hrest.
    unfold ret in Hpre; inversion Hpre; subst.
    now rewrite (IH s' rs s1 e s2 Hrest Hop).
Qed.

(** C1, as the code has it.  An operation that passes its own
    [ValidateBasic] and declares at least one signer other than the
    contract (so every operation asking for the authorization of several
    parties) fails with [ErrUnauthorized], whatever the two routers are
    and before either is consulted: the store is left as it was.  When the
    encoder produced that operation and the operations before it in the
    batch succeeded, [DispatchMsg] returns that error with no events and
    no data. *)
Theorem foreign_signer_is_unauthorized (op : sdk.Msg) :
  sdk.ValidateBasic op = None ->
  (exists acct,
      In acct (sdk.GetSigners op) /\ sdk.Equals acct contractAddr = false) ->
  (forall s,
      handleSdkMessage h contractAddr op s
      = (inr (Wrap (Root ErrUnauthorized) "contract doesn't have permission"),
         s))
  /\ (forall contractIBCPortID msg pre post s s1 results s2,
        Encode (encoders h) contractAddr contractIBCPortID msg s
        = ((pre ++ op :: post, None), s1) ->
        handle_in_order h contractAddr pre s1 = ((results, None), s2) ->
        exists e,
          SDKMessageHandler_DispatchMsg h contractAddr contractIBCPortID msg s
          = (([], [], Some e), s2)
          /\ e = Wrap (Root ErrUnauthorized) "contract doesn't have permission"
          /\ errors_Is e ErrUnauthorized = true).
Proof.
  intros Hvalid Hforeign.
  assert (Hop : forall s,
             handleSdkMessage h contractAddr op s
             = (inr (Wrap (Root ErrUnauthorized)
                       "contract doesn't have permission"), s)).
  { intros s; unfold handleSdkMessage.
    now rewrite Hvalid, (check_signers_foreign _ Hforeign). }
  split; [exact Hop|].
  intros port msg pre post s s1 results s2 Henc Hpre.
  eexists; split; [|split; reflexivity].
  unfold SDKMessageHandler_DispatchMsg, bind.
  rewrite Henc, dispatch_loop_gathers.
  now rewrite (handle_in_order_fails_at pre post op s1 Hpre (Hop s2)).
Qed.

(** C7, as the code has it.  For an operation that passes validation and
    authorization: a handler without a service router fails with
    [ErrPanic] and consults nothing; otherwise the service router is asked
    first and, if it has a handler for the operation, the outcome is that
    handler's; only otherwise, and only for an operation with a legacy
    route, is the route looked up in the legacy router and the handler
    found there run; a route the legacy router does not know fails with
    [ErrUnknownRequest] naming the route, and an operation without a
    legacy route fails with [ErrUnknownRequest] naming the operation. *)
Theorem routing_order (op : sdk.Msg) (s : St) :
  sdk.ValidateBasic op = None ->
  (forall acct,
      In acct (sdk.GetSigners op) -> sdk.Equals acct contractAddr = true) ->
  (msgRouter h = None ->
     handleSdkMessage h contractAddr op s
     = (inr (Wrap (Root ErrPanic) ">>> msgRouter is nil!!!"), s))
  /\ (forall mr handler,
        msgRouter h = Some mr ->
        msr_Handler mr op = Some handler ->
        handleSdkMessage h contractAddr op s = handler op s)
  /\ (forall mr route handler s1,
        msgRouter h = Some mr ->
        msr_Handler mr op = None ->
        sdk.LegacyRoute op = Some route ->
        Route (router h) route s = (Some handler, s1) ->
        handleSdkMessage h contractAddr op s = handler op s1)
  /\ (forall mr route s1,
        msgRouter h = Some mr ->
        msr_Handler mr op = None ->
        sdk.LegacyRoute op = Some route ->
        Route (router h) route s = (None, s1) ->
        handleSdkMessage h contractAddr op s
        = (inr (Wrap (Root ErrUnknownRequest)
                  ("unrecognized message route: " ++ route ++ "; message")),
           s1))
  /\ (forall mr,
        msgRouter h = Some mr ->
        msr_Handler mr op = None ->
        sdk.LegacyRoute op = None ->
        handleSdkMessage h contractAddr op s
        = (inr (Wrap (Root ErrUnknownRequest)
                  ("can't route message " ++ sdk.Format op)),
           s)).
Proof.
  intros Hvalid Hown.
  unfold handleSdkMessage.
  rewrite Hvalid, (check_signers_own _ Hown).
  repeat split.
  - intros ->; reflexivity.
  - intros mr handler -> ->; reflexivity.
  - intros mr route handler s1 -> -> -> Hroute.
    unfold bind; now rewrite Hroute.
  - intros mr route s1 -> -> -> Hroute.
    unfold bind; now rewrite Hroute.
  - intros mr -> -> ->; reflexivity.
Qed.






End SDKFacts.

(* ================================================================== *)
(** ** Properties of the IBC packet handler *)

Section IBCFacts.

Variable St : Type.
Variable convertWasmIBCTimeoutHeightToCosmosHeight :
  option wasmvmtypes.IBCTimeoutBlock -> channeltypes.Height.
Variable ChannelCapabilityPath : string -> string -> string.
Variable chk : ChannelKeeper St.
Variable cak : CapabilityKeeper St.

(** Recording changes neither the result nor the store. *)
Lemma ibc_recorded_same_outcome contractAddr contractIBCPortID msg s calls :
  let '(r, (s', _)) :=
    ibc_recorded convertWasmIBCTimeoutHeightToCosmosHeight ChannelCapabilityPath
      chk cak contractAddr contractIBCPortID msg (s, calls) in
  ibc_plain convertWasmIBCTimeoutHeightToCosmosHeight ChannelCapabilityPath
      chk cak contractAddr contractIBCPortID msg s = (r, s').
Proof.
  unfold ibc_recorded, ibc_plain, IBCRawPacketHandler_DispatchMsg.
  destruct (send_packet_of msg) as [sp|]; [|reflexivity].
  destruct (String.eqb contractIBCPortID ""); [reflexivity|].
  destruct (String.eqb (wasmvmtypes.ChannelID sp) ""); [reflexivity|].
  cbn; unfold bind, recorded; cbn.
  destruct (GetNextSequenceSend chk _ _ s) as [[sequence [|]] s1];
    [|reflexivity]; cbn.
  destruct (GetChannel chk _ _ s1) as [[channelInfo [|]] s2];
    [|reflexivity]; cbn.
  destruct (GetCapability cak _ s2) as [[channelCap [|]] s3];
    [|reflexivity]; cbn.
  destruct (SendPacket chk _ _ s3) as [err s4]; reflexivity.
Qed.

Variable contractAddr : sdk.AccAddress.
Variable contractIBCPortID : string.
Variable msg : wasmvmtypes.CosmosMsg.
Variable sendPacket : wasmvmtypes.SendPacketMsg.

(** C4.  For a send-packet message the checks are made in this order,
    each failing with its own error: an empty port ID gives
    [ErrUnsupportedForContract]; an empty channel ID gives [ErrEmpty];
    a next-send sequence that is not found gives
    [ErrSequenceSendNotFound], naming port and channel; a channel that is
    not found gives [ErrInvalidChannel]; a capability that is not found
    gives [ErrChannelCapabilityNotFound].  The record of calls shows that
    a later check is not reached when an earlier one fails, and that
    [SendPacket] is called only when every check passed. *)
Theorem send_packet_checks_in_order (s : St) :
  send_packet_of msg = Some sendPacket ->
  let channelID := wasmvmtypes.ChannelID sendPacket in
  let capName := ChannelCapabilityPath contractIBCPortID channelID in
  let outcome :=
    ibc_recorded convertWasmIBCTimeoutHeightToCosmosHeight ChannelCapabilityPath
      chk cak contractAddr contractIBCPortID msg (s, []) in
  let '((sequence, found), s1) :=
    GetNextSequenceSend chk contractIBCPortID channelID s in
  let '((channelInfo, okChannel), s2) :=
    GetChannel chk contractIBCPortID channelID s1 in
  let '((channelCap, okCap), s3) := GetCapability cak capName s2 in
  (contractIBCPortID = "" ->
     outcome
     = (([], [], Some (Wrap (Root ErrUnsupportedForContract)
                         "ibc not supported")),
        (s, [])))
  /\ (contractIBCPortID <> "" -> channelID = "" ->
        outcome
        = (([], [], Some (Wrap (Root ErrEmpty) "ibc channel")), (s, [])))
  /\ (contractIBCPortID <> "" -> channelID <> "" -> found = false ->
        outcome
        = (([], [], Some (Wrap (Root ErrSequenceSendNotFound)
                            ("source port: " ++ contractIBCPortID
                               ++ ", source channel: " ++ channelID))),
           (s1, [Call_GetNextSequenceSend contractIBCPortID channelID])))
  /\ (contractIBCPortID <> "" -> channelID <> "" -> found = true ->
      okChannel = false ->
        outcome
        = (([], [], Some (Wrap (Root ErrInvalidChannel) "not found")),
           (s2, [Call_GetNextSequenceSend contractIBCPortID channelID;
                 Call_GetChannel contractIBCPortID channelID])))
  /\ (contractIBCPortID <> "" -> channelID <> "" -> found = true ->
      okChannel = true -> okCap = false ->
        outcome
        = (([], [], Some (Wrap (Root ErrChannelCapabilityNotFound)
                            "module does not own channel capability")),
           (s3, [Call_GetNextSequenceSend contractIBCPortID channelID;
                 Call_GetChannel contractIBCPortID channelID;
                 Call_GetCapability capName])))
  /\ (contractIBCPortID <> "" -> channelID <> "" -> found = true ->
      okChannel = true -> okCap = true ->
        exists packet err s4,
          outcome
          = (([], [], err),
             (s4, [Call_GetNextSequenceSend contractIBCPortID channelID;
                   Call_GetChannel contractIBCPortID channelID;
                   Call_GetCapability capName;
                   Call_SendPacket channelCap packet])))
  /\ (existsb is_SendPacket (snd (snd outcome)) = true ->
        contractIBCPortID <> "" /\ channelID <> "" /\ found = true
        /\ okChannel = true /\ okCap = true).
Proof.
  intros Hsp; cbv zeta.
  destruct (GetNextSequenceSend chk _ _ s) as [[sequence found] s1] eqn:Hseq.
  destruct (GetChannel chk _ _ s1) as [[channelInfo okChannel] s2] eqn:Hch.
  destruct (GetCapability cak _ s2) as [[channelCap okCap] s3] eqn:Hcap.
  step_ibc; rewrite Hsp.
  destruct (String.eqb_spec contractIBCPortID "") as [Hport|Hport].
  { repeat split; try congruence; cbn; discriminate. }
  destruct (String.eqb_spec (wasmvmtypes.ChannelID sendPacket) "")
    as [Hchan|Hchan].
  { repeat split; try congruence; cbn; discriminate. }
  unfold bind, recorded; cbn; rewrite Hseq; cbn.
  destruct found; cbn.
  2:{ repeat split; try congruence; cbn; discriminate. }
  rewrite Hch; cbn.
  destruct okChannel; cbn.
  2:{ repeat split; try congruence; cbn; discriminate. }
  rewrite Hcap; cbn.
  destruct okCap; cbn.
  2:{ repeat split; try congruence; cbn; discriminate. }
  match goal with
  | |- context [SendPacket chk ?c ?p s3] =>
      destruct (SendPacket chk c p s3) as [err s4] eqn:Hsend
  end.
  repeat split; try congruence.
  intros _ _ _ _ _; eexists _, err, s4; reflexivity.
Qed.

(** C5.  When every check passes, the packet handed to [SendPacket],
    together with the capability found, has the sequence the keeper
    returned in this call, the contract's port and the message's channel
    as source, the counterparty of the channel found as destination, the
    data and timeout timestamp of the message, and the converted timeout
    block as timeout height.  The handler returns no events, no data and
    whatever [SendPacket] returned: nil on success, the error as it is
    otherwise. *)
Theorem submitted_packet_is_determined
    (s s1 s2 s3 s4 : St) (sequence : N) (channelInfo : channeltypes.Channel)
    (channelCap : option channeltypes.Capability) (err : option error) :
  send_packet_of msg = Some sendPacket ->
  contractIBCPortID <> "" ->
  wasmvmtypes.ChannelID sendPacket <> "" ->
  GetNextSequenceSend chk contractIBCPortID
    (wasmvmtypes.ChannelID sendPacket) s = ((sequence, true), s1) ->
  GetChannel chk contractIBCPortID
    (wasmvmtypes.ChannelID sendPacket) s1 = ((channelInfo, true), s2) ->
  GetCapability cak
    (ChannelCapabilityPath contractIBCPortID (wasmvmtypes.ChannelID sendPacket))
    s2 = ((channelCap, true), s3) ->
  let packet :=
    {| channeltypes.Sequence := sequence;
       channeltypes.SourcePort := contractIBCPortID;
       channeltypes.SourceChannel := wasmvmtypes.ChannelID sendPacket;
       channeltypes.DestinationPort :=
         channeltypes.PortId (channeltypes.Counterparty_ channelInfo);
       channeltypes.DestinationChannel :=
         channeltypes.ChannelId (channeltypes.Counterparty_ channelInfo);
       channeltypes.Data := wasmvmtypes.Data sendPacket;
       channeltypes.TimeoutHeight :=
         convertWasmIBCTimeoutHeightToCosmosHeight
           (wasmvmtypes.Block (wasmvmtypes.Timeout_ sendPacket));
       channeltypes.TimeoutTimestamp :=
         wasmvmtypes.Timestamp (wasmvmtypes.Timeout_ sendPacket) |} in
  SendPacket chk channelCap packet s3 = (err, s4) ->
  ibc_recorded convertWasmIBCTimeoutHeightToCosmosHeight ChannelCapabilityPath
      chk cak contractAddr contractIBCPortID msg (s, [])
  = (([], [], err),
     (s4, [Call_GetNextSequenceSend contractIBCPortID
             (wasmvmtypes.ChannelID sendPacket);
           Call_GetChannel contractIBCPortID
             (wasmvmtypes.ChannelID sendPacket);
           Call_GetCapability
             (ChannelCapabilityPath contractIBCPortID
                (wasmvmtypes.ChannelID sendPacket));
           Call_SendPacket channelCap packet]))
  /\ ibc_plain convertWasmIBCTimeoutHeightToCosmosHeight ChannelCapabilityPath
      chk cak contractAddr contractIBCPortID msg s = (([], [], err), s4).
Proof.
  intros Hsp Hport Hchan Hseq Hch Hcap packet Hsend.
  assert (Hrec :
    ibc_recorded convertWasmIBCTimeoutHeightToCosmosHeight ChannelCapabilityPath
      chk cak contractAddr contractIBCPortID msg (s, [])
    = (([], [], err),
       (s4, [Call_GetNextSequenceSend contractIBCPortID
               (wasmvmtypes.ChannelID sendPacket);
             Call_GetChannel contractIBCPortID
               (wasmvmtypes.ChannelID sendPacket);
             Call_GetCapability
               (ChannelCapabilityPath contractIBCPortID
                  (wasmvmtypes.ChannelID sendPacket));
             Call_SendPacket channelCap packet]))).
  { step_ibc; rewrite Hsp.
    apply String.eqb_neq in Hport, Hchan; rewrite Hport, Hchan.
    unfold bind, recorded; cbn.
    rewrite Hseq; cbn; rewrite Hch; cbn; rewrite Hcap; cbn.
    unfold channeltypes.NewPacket; fold packet.
    now rewrite Hsend. }
  split; [exact Hrec|].
  pose proof (ibc_recorded_same_outcome contractAddr contractIBCPortID msg s [])
    as Hsame.
  now rewrite Hrec in Hsame.
Qed.

(** C10.  The handler ignores the address of the invoking contract: for
    the same keepers, store, port ID and message, any two addresses give
    the same events, data, error and store. *)
Theorem ibc_ignores_contract_address
    (h : IBCRawPacketHandler St) (otherAddr : sdk.AccAddress) (s : St) :
  IBCRawPacketHandler_DispatchMsg
    convertWasmIBCTimeoutHeightToCosmosHeight ChannelCapabilityPath
    h contractAddr contractIBCPortID msg s
  = IBCRawPacketHandler_DispatchMsg
      convertWasmIBCTimeoutHeightToCosmosHeight ChannelCapabilityPath
      h otherAddr contractIBCPortID msg s.
Proof.
  reflexivity.
Qed.

End IBCFacts.

(* ================================================================== *)
(** ** Properties of the burn handler *)

Section BurnFacts.

Variable St : Type.
Variable ModuleName : string.
Variable convertWasmCoinsToSdkCoins :
  list wasmvmtypes.Coin -> sdk.Coins * option error.
Variable moduleLogger : Logger St.
Variable burner : Burner St.

(** Recording changes neither the result nor the store. *)
Lemma burn_recorded_same_outcome contractAddr contractIBCPortID msg s calls :
  let '(r, (s', _)) :=
    burn_recorded ModuleName convertWasmCoinsToSdkCoins moduleLogger burner
      contractAddr contractIBCPortID msg (s, calls) in
  burn_plain ModuleName convertWasmCoinsToSdkCoins moduleLogger burner
      contractAddr contractIBCPortID msg s = (r, s').
Proof.
  unfold burn_recorded, burn_plain, NewBurnCoinMessageHandler.
  destruct (burn_of msg) as [burn|]; [|reflexivity].
  destruct (convertWasmCoinsToSdkCoins _) as [coins [e|]]; [reflexivity|].
  cbn; unfold bind, recorded; cbn.
  destruct (SendCoinsFromAccountToModule burner _ _ _ s) as [[e|] s1];
    [reflexivity|]; cbn.
  destruct (BurnCoins burner _ _ s1) as [[e|] s2]; [reflexivity|]; cbn.
  destruct (Info moduleLogger _ _ s2) as [[] s3]; reflexivity.
Qed.

Variable contractAddr : sdk.AccAddress.
Variable contractIBCPortID : string.
Variable msg : wasmvmtypes.CosmosMsg.

(** C6.  For a burn message whose amount converts to [coins], the ledger
    is called first to send [coins] from the contract to the module
    account and then to burn [coins] from the module account.  A failed
    transfer ends the call with the error wrapped as "transfer to module",
    before any burn; a failed burn ends it with the error wrapped as "burn
    coins".  When both succeed the ledger calls are exactly these two, the
    logger is told, and the handler returns no events, no data and no
    error. *)
Theorem burn_is_transfer_then_burn
    (burn : wasmvmtypes.BurnMsg) (coins : sdk.Coins) (s : St) :
  burn_of msg = Some burn ->
  convertWasmCoinsToSdkCoins (wasmvmtypes.Amount_ burn) = (coins, None) ->
  let outcome :=
    burn_recorded ModuleName convertWasmCoinsToSdkCoins moduleLogger burner
      contractAddr contractIBCPortID msg (s, []) in
  let transfer :=
    Call_SendCoinsFromAccountToModule contractAddr ModuleName coins in
  let burning := Call_BurnCoins ModuleName coins in
  let '(transferErr, s1) :=
    SendCoinsFromAccountToModule burner contractAddr ModuleName coins s in
  let '(burnErr, s2) := BurnCoins burner ModuleName coins s1 in
  (forall e, transferErr = Some e ->
     outcome = (([], [], Some (Wrap e "transfer to module")), (s1, [transfer])))
  /\ (forall e, transferErr = None -> burnErr = Some e ->
        outcome
        = (([], [], Some (Wrap e "burn coins")), (s2, [transfer; burning])))
  /\ (transferErr = None -> burnErr = None ->
        exists s3 calls,
          outcome = (([], [], None), (s3, calls))
          /\ calls = [transfer; burning;
                      Call_Info "Burned" [LogString "amount"; LogCoins coins]]
          /\ filter is_ledger_call calls = [transfer; burning]
          /\ burn_plain ModuleName convertWasmCoinsToSdkCoins
               moduleLogger burner contractAddr contractIBCPortID msg s
             = (([], [], None), s3)).
Proof.
  intros Hburn Hconv; cbv zeta.
  destruct (SendCoinsFromAccountToModule burner _ _ _ s)
    as [transferErr s1] eqn:Hsend.
  destruct (BurnCoins burner _ _ s1) as [burnErr s2] eqn:Hb.
  pose proof
    (burn_recorded_same_outcome contractAddr contractIBCPortID msg s [])
    as Hsame.
  unfold burn_recorded, NewBurnCoinMessageHandler in *.
  rewrite Hburn, Hconv in *.
  cbn in *; unfold bind, recorded in *; cbn in *.
  rewrite Hsend in *; cbn in *.
  split; [|split].
  - intros e ->; reflexivity.
  - intros e -> ->; cbn; rewrite Hb; reflexivity.
  - intros -> ->; cbn in *; rewrite Hb in *; cbn in *.
    destruct (Info moduleLogger _ _ s2) as [[] s3].
    exists s3; eexists.
    split; [reflexivity|].
    split; [reflexivity|].
    split; [reflexivity|exact Hsame].
Qed.

End BurnFacts.

(* ================================================================== *)
(** ** The properties on the small deployment *)

(** The default chain on a burn of 100 uatom by [C1]: the SDK handler and
    the IBC handler report the unknown-message signal, the burn handler
    answers, and the three are invoked once each, in order. *)
Lemma default_chain_burns :
  MessageHandlerChain_DispatchMsg (mkChain Scenario.defaultHandlers)
    Scenario.C1 "wasm.C1" Scenario.burn100 0
  = (([], [], None), 2)
  /\ MessageHandlerChain_DispatchMsg
       (mkChain (recorded_handlers 0 Scenario.defaultHandlers))
       Scenario.C1 "wasm.C1" Scenario.burn100 (0, [])
     = (([], [], None),
        (2, [Call_DispatchMsg 0; Call_DispatchMsg 1; Call_DispatchMsg 2])).
Proof.
  exact (chain_returns_first_decisive
           Scenario.C1 "wasm.C1" Scenario.burn100
           [SDKMessageHandler_DispatchMsg
              (Scenario.sdkHandler (Some Scenario.serviceRouter)
                 [Scenario.sendFromC1]);
            Scenario.ibcHandler]
           [] Scenario.burnHandler 0 eq_refl eq_refl eq_refl).
Defined.

(** A chain of the IBC and burn handlers on a custom message: both report
    the unknown-message signal and the chain answers with the wrapped
    sentinel. *)
Lemma nobody_handles_custom :
  exists e,
    MessageHandlerChain_DispatchMsg
      (mkChain [Scenario.ibcHandler; Scenario.burnHandler])
      Scenario.C1 "wasm.C1" Scenario.custom 0
    = (([], [], Some e), 0)
    /\ e = Wrap (Root ErrUnknownMsg) "no handler found"
    /\ e <> Root ErrUnknownMsg
    /\ errors_Is e ErrUnknownMsg = true
    /\ is_unknown_msg (Some e) = true.
Proof.
  exact (chain_exhausted_wraps_unknown_msg
           Scenario.C1 "wasm.C1" Scenario.custom
           [Scenario.ibcHandler; Scenario.burnHandler] 0 eq_refl).
Defined.

(** C3 as stated fails: every handler of this chain reports the
    unknown-message signal, and the error the chain returns to its caller
    is itself of the unknown-message kind. *)
Lemma exhausted_chain_surfaces_unknown_msg :
  all_report_unknown [Scenario.ibcHandler; Scenario.burnHandler]
    Scenario.C1 "wasm.C1" Scenario.custom 0 = Some 0
  /\ snd (fst (MessageHandlerChain_DispatchMsg
                 (mkChain [Scenario.ibcHandler; Scenario.burnHandler])
                 Scenario.C1 "wasm.C1" Scenario.custom 0))
     = Some (Wrap (Root ErrUnknownMsg) "no handler found")
  /\ errors_Is (Wrap (Root ErrUnknownMsg) "no handler found") ErrUnknownMsg
     = true.
Proof.
  repeat split.
Qed.

(** A nil handler in third position: the constructor panics and names
    position 2. *)
Lemma nil_handler_panics :
  NewMessageHandlerChain (Some Scenario.ibcHandler)
    [Some Scenario.burnHandler; None; None]
  = Panicked "handler must not be nil at position : 2".
Proof.
  refine (proj1 (proj2 (NewMessageHandlerChain_rejects_nil
                          (Some Scenario.ibcHandler)
                          [Some Scenario.burnHandler; None; None])) 2 _).
  split; [reflexivity|].
  intros [|[|j]] Hj; [eexists; reflexivity | eexists; reflexivity | lia].
Defined.

(** An operation that asks for the signatures of [C1] and [C2] is refused
    to [C1], though the service router has a handler for it; coming second
    in a batch, it makes the whole dispatch fail. *)
Lemma multi_party_is_unauthorized :
  handleSdkMessage (Scenario.sdkHandler (Some Scenario.serviceRouter) [])
    Scenario.C1 Scenario.sendFromBoth 0
  = (inr (Wrap (Root ErrUnauthorized) "contract doesn't have permission"), 0)
  /\ exists e,
       SDKMessageHandler_DispatchMsg
         (Scenario.sdkHandler (Some Scenario.serviceRouter)
            [Scenario.sendFromC1; Scenario.sendFromBoth])
         Scenario.C1 "wasm.C1" Scenario.custom 0
       = (([], [], Some e), 1)
       /\ e = Wrap (Root ErrUnauthorized) "contract doesn't have permission"
       /\ errors_Is e ErrUnauthorized = true.
Proof.
  assert (Hforeign :
    exists acct,
      In acct (sdk.GetSigners Scenario.sendFromBoth)
      /\ sdk.Equals acct Scenario.C1 = false).
  { exists Scenario.C2; split; [right; left; reflexivity | reflexivity]. }
  split.
  - exact (proj1 (foreign_signer_is_unauthorized
                    (Scenario.sdkHandler (Some Scenario.serviceRouter) [])
                    Scenario.C1 Scenario.sendFromBoth eq_refl Hforeign) 0).
  - exact (proj2 (foreign_signer_is_unauthorized
                    (Scenario.sdkHandler (Some Scenario.serviceRouter)
                       [Scenario.sendFromC1; Scenario.sendFromBoth])
                    Scenario.C1 Scenario.sendFromBoth eq_refl Hforeign)
             "wasm.C1" Scenario.custom [Scenario.sendFromC1] [] 0 0
             [sdk.mkResult (list_byte_of_string "/cosmos.bank.v1beta1.MsgSend")
                "" [Scenario.transferred]]
             1 eq_refl eq_refl).
Defined.

(** C1 as stated fails: the signer set of this operation is empty, not
    [{C1}], and the handler dispatches it without any error. *)
Lemma unsigned_operation_is_dispatched :
  signers_are_exactly Scenario.C1 (sdk.GetSigners Scenario.unsigned) = false
  /\ SDKMessageHandler_DispatchMsg
       (Scenario.sdkHandler (Some Scenario.serviceRouter) [Scenario.unsigned])
       Scenario.C1 "wasm.C1" Scenario.custom 0
     = (([Scenario.transferred],
         [list_byte_of_string "/cosmos.bank.v1beta1.MsgSend"], None), 1).
Proof.
  split; reflexivity.
Qed.

(** An operation the service router does not know goes to the legacy
    router by its route; a route the legacy router does not know either
    is an unknown request. *)
Lemma legacy_route_is_second :
  handleSdkMessage (Scenario.sdkHandler (Some Scenario.serviceRouter) [])
    Scenario.C1 Scenario.legacySend 0
  = Scenario.bankHandler Scenario.legacySend 0
  /\ handleSdkMessage (Scenario.sdkHandler (Some Scenario.serviceRouter) [])
       Scenario.C1 Scenario.legacyVote 0
     = (inr (Wrap (Root ErrUnknownRequest)
               "unrecognized message route: gov; message"), 0).
Proof.
  split.
  - refine (proj1 (proj2 (proj2
              (routing_order
                 (Scenario.sdkHandler (Some Scenario.serviceRouter) [])
                 Scenario.C1 Scenario.legacySend 0 eq_refl _)))
              Scenario.serviceRouter "bank" Scenario.bankHandler 0
              eq_refl eq_refl eq_refl eq_refl).
    intros acct [<-|[]]; reflexivity.
  - refine (proj1 (proj2 (proj2 (proj2
              (routing_order
                 (Scenario.sdkHandler (Some Scenario.serviceRouter) [])
                 Scenario.C1 Scenario.legacyVote 0 eq_refl _))))
              Scenario.serviceRouter "gov" 0
              eq_refl eq_refl eq_refl eq_refl).
    intros acct [<-|[]]; reflexivity.
Defined.

(** C7 as stated fails: this operation passes validation and
    authorization and the legacy router has a handler for its route, yet
    with no service router the handler fails with [ErrPanic]; the legacy
    router is not consulted and the error is not [ErrUnknownRequest]. *)
Lemma nil_service_router_panics :
  sdk.ValidateBasic Scenario.legacySend = None
  /\ check_signers (sdk.GetSigners Scenario.legacySend) Scenario.C1 = None
  /\ fst (Route Scenario.legacyRouter "bank" 0) = Some Scenario.bankHandler
  /\ handleSdkMessage (Scenario.sdkHandler None [])
       Scenario.C1 Scenario.legacySend 0
     = (inr (Wrap (Root ErrPanic) ">>> msgRouter is nil!!!"), 0)
  /\ errors_Is (Wrap (Root ErrPanic) ">>> msgRouter is nil!!!")
       ErrUnknownRequest = false.
Proof.
  repeat split.
Qed.


(** A send-packet message from a contract without a port, and one on a
    channel whose capability the module does not own: no packet is
    submitted. *)
Lemma no_port_or_no_capability_no_packet :
  ibc_recorded Scenario.convertHeight Scenario.capabilityPath
    Scenario.channels Scenario.capabilities
    Scenario.C1 "" Scenario.sendPacket (0, [])
  = (([], [], Some (Wrap (Root ErrUnsupportedForContract) "ibc not supported")),
     (0, []))
  /\ ibc_recorded Scenario.convertHeight Scenario.capabilityPath
       Scenario.channels Scenario.noCapabilities
       Scenario.C1 "wasm.C1" Scenario.sendPacket (0, [])
     = (([], [], Some (Wrap (Root ErrChannelCapabilityNotFound)
                         "module does not own channel capability")),
        (0, [Call_GetNextSequenceSend "wasm.C1" "channel-0";
             Call_GetChannel "wasm.C1" "channel-0";
             Call_GetCapability
               "capabilities/ports/wasm.C1/channels/channel-0"])).
Proof.
  split.
  - exact (proj1 (send_packet_checks_in_order
                    Scenario.convertHeight Scenario.capabilityPath
                    Scenario.channels Scenario.capabilities
                    Scenario.C1 "" Scenario.sendPacket 0 eq_refl)
             eq_refl).
  - refine (proj1 (proj2 (proj2 (proj2 (proj2
              (send_packet_checks_in_order
                 Scenario.convertHeight Scenario.capabilityPath
                 Scenario.channels Scenario.noCapabilities
                 Scenario.C1 "wasm.C1" Scenario.sendPacket 0 eq_refl)))))
              _ _ eq_refl eq_refl eq_refl); discriminate.
Defined.

(** The packet of the example: sequence 42 from port wasm.C1 on
    channel-0. *)
Lemma packet_42_is_submitted :
  ibc_recorded Scenario.convertHeight Scenario.capabilityPath
    Scenario.channels Scenario.capabilities
    Scenario.C1 "wasm.C1" Scenario.sendPacket (0, [])
  = (([], [], None),
     (1, [Call_GetNextSequenceSend "wasm.C1" "channel-0";
          Call_GetChannel "wasm.C1" "channel-0";
          Call_GetCapability "capabilities/ports/wasm.C1/channels/channel-0";
          Call_SendPacket (Some (channeltypes.mkCapability 5))
            {| channeltypes.Sequence := 42;
               channeltypes.SourcePort := "wasm.C1";
               channeltypes.SourceChannel := "channel-0";
               channeltypes.DestinationPort := "transfer";
               channeltypes.DestinationChannel := "channel-7";
               channeltypes.Data := [x01; x02];
               channeltypes.TimeoutHeight := channeltypes.mkHeight 1 1000;
               channeltypes.TimeoutTimestamp := 0 |}]))
  /\ ibc_plain Scenario.convertHeight Scenario.capabilityPath
       Scenario.channels Scenario.capabilities
       Scenario.C1 "wasm.C1" Scenario.sendPacket 0
     = (([], [], None), 1).
Proof.
  refine (submitted_packet_is_determined
            Scenario.convertHeight Scenario.capabilityPath
            Scenario.channels Scenario.capabilities
            Scenario.C1 Scenario.sendPacket 0
            (sendPacket := Scenario.packetMsg)
            eq_refl _ _ eq_refl eq_refl eq_refl eq_refl);
    discriminate.
Defined.

(** The burn of the example: 100 uatom go from [C1] to the module
    account and are burned there; on a ledger where [C1] has no funds the
    transfer fails and nothing is burned. *)
Lemma burn_100_uatom :
  (exists s3 calls,
    burn_recorded Scenario.ModuleName Scenario.convertCoins
      Scenario.logger Scenario.bank
      Scenario.C1 "wasm.C1" Scenario.burn100 (0, [])
    = (([], [], None), (s3, calls))
    /\ calls
       = [Call_SendCoinsFromAccountToModule Scenario.C1 "wasm"
            [sdk.mkCoin "uatom" 100];
          Call_BurnCoins "wasm" [sdk.mkCoin "uatom" 100];
          Call_Info "Burned"
            [LogString "amount"; LogCoins [sdk.mkCoin "uatom" 100]]]
    /\ filter is_ledger_call calls
       = [Call_SendCoinsFromAccountToModule Scenario.C1 "wasm"
            [sdk.mkCoin "uatom" 100];
          Call_BurnCoins "wasm" [sdk.mkCoin "uatom" 100]]
    /\ burn_plain Scenario.ModuleName Scenario.convertCoins
         Scenario.logger Scenario.bank
         Scenario.C1 "wasm.C1" Scenario.burn100 0
       = (([], [], None), s3))
  /\ burn_recorded Scenario.ModuleName Scenario.convertCoins
       Scenario.logger Scenario.emptyBank
       Scenario.C1 "wasm.C1" Scenario.burn100 (0, [])
     = (([], [], Some (Wrap (Root (ErrOther "insufficient funds"))
                         "transfer to module")),
        (0, [Call_SendCoinsFromAccountToModule Scenario.C1 "wasm"
               [sdk.mkCoin "uatom" 100]])).
Proof.
  split.
  - exact (proj2 (proj2
             (burn_is_transfer_then_burn
                Scenario.ModuleName Scenario.convertCoins
                Scenario.logger Scenario.bank
                Scenario.C1 "wasm.C1" Scenario.burn100 0 eq_refl eq_refl))
             eq_refl eq_refl).
  - exact (proj1
             (burn_is_transfer_then_burn
                Scenario.ModuleName Scenario.convertCoins
                Scenario.logger Scenario.emptyBank
                Scenario.C1 "wasm.C1" Scenario.burn100 0 eq_refl eq_refl)
             _ eq_refl).
Defined.

(* ================================================================== *)
(** ** Further properties of the chain *)

Section ChainComposition.

Variable St : Type.
Variables (contractAddr : sdk.AccAddress) (contractIBCPortID : string).
Variable msg : wasmvmtypes.CosmosMsg.

(** X1.  A chain is itself a handler, and a chain placed first in another
    chain behaves as if its handlers were written out in place: an inner
    chain that runs out of handlers returns the wrapped sentinel, which
    the outer chain takes for the unknown-message signal and goes on. *)
Theorem nested_chain_is_concatenation
    (inner rest : list (Messenger St)) (s : St) :
  MessageHandlerChain_DispatchMsg
    (mkChain (MessageHandlerChain_DispatchMsg (mkChain inner) :: rest))
    contractAddr contractIBCPortID msg s
  = MessageHandlerChain_DispatchMsg (mkChain (inner ++ rest))
      contractAddr contractIBCPortID msg s.
Proof.
  unfold MessageHandlerChain_DispatchMsg; simpl handlers.
  revert s; induction inner as [|h inner IH]; intros s.
  - reflexivity.
  - simpl in *; unfold bind in *.
    destruct (h contractAddr contractIBCPortID msg s) as [[[ev d] err] s'].
    destruct err as [e|]; [|reflexivity].
    destruct (errors_Is e ErrUnknownMsg) eqn:He.
    + apply IH.
    + unfold ret; now rewrite He.
Qed.

(** X9.  In every dispatch, whatever the handlers answer, the handlers
    invoked are the first [k] of the list, each exactly once and in list
    order, for some [k]: no handler is skipped, none is invoked twice, and
    a chain with a handler invokes at least the first. *)
Theorem chain_invokes_initial_segment (hs : list (Messenger St)) (s : St) :
  exists k,
    k <= List.length hs
    /\ (hs <> [] -> 1 <= k)
    /\ snd (snd (MessageHandlerChain_DispatchMsg
                   (mkChain (recorded_handlers 0 hs))
                   contractAddr contractIBCPortID msg (s, [])))
       = map Call_DispatchMsg (seq 0 k).
Proof.
  unfold MessageHandlerChain_DispatchMsg; simpl handlers.
  destruct (chain_cases contractAddr contractIBCPortID msg hs s)
    as [[s1 Hall]|[pre [h [post [s1 [-> [Hpre Hdec]]]]]]].
  - exists (List.length hs); repeat split; [lia| |].
    + destruct hs; [congruence|simpl; lia].
    + rewrite <- (app_nil_r hs) at 1.
      now rewrite (recorded_passes_over contractAddr contractIBCPortID msg
                     hs [] 0 s [] Hall).
  - exists (S (List.length pre)); repeat split.
    + rewrite length_app; simpl; lia.
    + lia.
    + rewrite (recorded_passes_over contractAddr contractIBCPortID msg
                 pre (h :: post) 0 s [] Hpre).
      destruct (h contractAddr contractIBCPortID msg s1) as [[[ev d] err] s2]
        eqn:Hh.
      rewrite (recorded_stops contractAddr contractIBCPortID msg h post
                 (0 + List.length pre) s1 _ Hh Hdec).
      simpl snd; simpl app at 1.
      now rewrite seq_S, map_app.
Qed.

End ChainComposition.

(* ================================================================== *)
(** ** Further properties of the SDK message handler *)

Section SDKComposition.

Variable St : Type.
Variable h : SDKMessageHandler St.
Variable contractAddr : sdk.AccAddress.

Lemma bytes_Equal_eq (a b : list byte) :
  sdk.bytes_Equal a b = true <-> a = b.
Proof.
  revert b; induction a as [|x a IH]; intros [|y b]; simpl;
    try (split; [discriminate|discriminate]); [tauto|].
  rewrite andb_true_iff, IH.
  split.
  - intros [Hxy ->]; now rewrite (Byte.byte_dec_bl _ _ Hxy).
  - intros Heq; inversion Heq; subst; split; [|reflexivity].
    now apply Byte.byte_dec_lb.
Qed.

(** [Equals] holds of the same address only. *)
Lemma Equals_eq (aa aa2 : sdk.AccAddress) :
  sdk.Equals aa aa2 = true <-> aa = aa2.
Proof.
  unfold sdk.Equals.
  destruct aa, aa2; try apply bytes_Equal_eq.
  tauto.
Qed.

(** X3.  An operation passes the signer check exactly when every signer
    it declares is the contract address, byte for byte: neither the order
    of the signers nor their repetition matters, and a list without
    signers passes. *)
Theorem signers_pass_iff_all_are_contract (signers : list sdk.AccAddress) :
  check_signers signers contractAddr = None
  <-> (forall acct, In acct signers -> acct = contractAddr).
Proof.
  induction signers as [|a signers IH]; simpl.
  - split; [intros _ acct []|reflexivity].
  - destruct (sdk.Equals a contractAddr) eqn:Ha; simpl.
    + apply Equals_eq in Ha; subst a.
      rewrite IH; split.
      * intros Hall acct [<-|Hin]; [reflexivity|now apply Hall].
      * intros Hall acct Hin; apply Hall; now right.
    + split; [discriminate|].
      intros Hall.
      assert (Heq : a = contractAddr) by (apply Hall; now left).
      apply Equals_eq in Heq; congruence.
Qed.

Lemma handle_in_order_length (sdkMsgs : list sdk.Msg) :
  forall s results s1,
    handle_in_order h contractAddr sdkMsgs s = ((results, None), s1) ->
    List.length results = List.length sdkMsgs.
Proof.
  induction sdkMsgs as [|m sdkMsgs IH]; intros s results s1; simpl.
  - unfold ret; intros Heq; now inversion Heq.
  - unfold bind.
    destruct (handleSdkMessage h contractAddr m s) as [[res|e] s'];
      [|unfold ret; discriminate].
    destruct (handle_in_order h contractAddr sdkMsgs s')
      as [[rs oe] s''] eqn:Hrest.
    unfold ret; intros Heq; inversion Heq; subst; simpl.
    now rewrite (IH s' rs s1 Hrest).
Qed.

(** X2.  A dispatch that succeeds returns one data blob for each
    operation the encoder produced, empty blobs included, so that the
    blob at a position is the answer to the operation at that position. *)
Theorem one_data_blob_per_operation
    (contractIBCPortID : string) (msg : wasmvmtypes.CosmosMsg)
    (s s1 s2 : St) (sdkMsgs : list sdk.Msg)
    (events : list sdk.Event) (data : list (list byte)) :
  Encode (encoders h) contractAddr contractIBCPortID msg s
  = ((sdkMsgs, None), s1) ->
  SDKMessageHandler_DispatchMsg h contractAddr contractIBCPortID msg s
  = ((events, data, None), s2) ->
  List.length data = List.length sdkMsgs.
Proof.
  intros Henc.
  unfold SDKMessageHandler_DispatchMsg, bind.
  rewrite Henc, dispatch_loop_gathers.
  destruct (handle_in_order h contractAddr sdkMsgs s1)
    as [[results [e|]] s'] eqn:Hall; [discriminate|].
  intros Heq; inversion Heq; subst.
  rewrite length_map.
  exact (handle_in_order_length sdkMsgs s1 Hall).
Qed.

(** X8.  The loop over a batch composes: running it over [a ++ b] is
    running it over [a] and, unless that failed, over [b] with the events
    and data gathered so far and the store [a] left; a failure in [a]
    keeps [b] from being handled at all. *)
Theorem dispatch_loop_app (a b : list sdk.Msg) :
  forall events data s,
    dispatch_loop h contractAddr (a ++ b) events data s
    = let '((events', data', err), s1) :=
        dispatch_loop h contractAddr a events data s in
      match err with
      | Some e => (([], [], Some e), s1)
      | None => dispatch_loop h contractAddr b events' data' s1
      end.
Proof.
  induction a as [|m a IH]; intros events data s; simpl.
  - reflexivity.
  - unfold bind.
    destruct (handleSdkMessage h contractAddr m s) as [[res|e] s'].
    + apply IH.
    + reflexivity.
Qed.

(** X6.  With the SDK handler first in a chain: an encoder error of the
    unknown-message kind hands the message, and the store the encoder
    left, to the handlers after it; any other encoder error ends the chain
    with that error; and an encoder that yields no operation at all ends
    the chain with a success without events or data, so that no later
    handler sees the message. *)
Theorem sdk_handler_heads_chain
    (rest : list (Messenger St)) (contractIBCPortID : string)
    (msg : wasmvmtypes.CosmosMsg) (s : St) :
  let chain :=
    MessageHandlerChain_DispatchMsg
      (mkChain (SDKMessageHandler_DispatchMsg h :: rest)) in
  (forall sdkMsgs e s1,
      Encode (encoders h) contractAddr contractIBCPortID msg s
      = ((sdkMsgs, Some e), s1) ->
      errors_Is e ErrUnknownMsg = true ->
      chain contractAddr contractIBCPortID msg s
      = MessageHandlerChain_DispatchMsg (mkChain rest)
          contractAddr contractIBCPortID msg s1)
  /\ (forall sdkMsgs e s1,
        Encode (encoders h) contractAddr contractIBCPortID msg s
        = ((sdkMsgs, Some e), s1) ->
        errors_Is e ErrUnknownMsg = false ->
        chain contractAddr contractIBCPortID msg s = (([], [], Some e), s1))
  /\ (forall s1,
        Encode (encoders h) contractAddr contractIBCPortID msg s
        = (([], None), s1) ->
        chain contractAddr contractIBCPortID msg s = (([], [], None), s1)).
Proof.
  cbv zeta; unfold MessageHandlerChain_DispatchMsg; simpl handlers.
  simpl chain_loop; unfold SDKMessageHandler_DispatchMsg, bind.
  repeat split.
  - intros sdkMsgs e s1 -> He; unfold ret; now rewrite He.
  - intros sdkMsgs e s1 -> He; unfold ret; now rewrite He.
  - intros s1 ->; reflexivity.
Qed.

End SDKComposition.

(* ================================================================== *)
(** ** Further properties of the IBC packet and burn handlers *)

Section KeeperCalls.

Variable St : Type.
Variable convertWasmIBCTimeoutHeightToCosmosHeight :
  option wasmvmtypes.IBCTimeoutBlock -> channeltypes.Height.
Variable ChannelCapabilityPath : string -> string -> string.
Variable chk : ChannelKeeper St.
Variable cak : CapabilityKeeper St.
Variable ModuleName : string.
Variable convertWasmCoinsToSdkCoins :
  list wasmvmtypes.Coin -> sdk.Coins * option error.
Variable moduleLogger : Logger St.
Variable burner : Burner St.
Variable contractAddr : sdk.AccAddress.
Variable contractIBCPortID : string.
Variable msg : wasmvmtypes.CosmosMsg.

(** X4.  Whatever the keepers answer, the IBC handler returns no events
    and no data, and the calls it makes are the first few of: next
    sequence, channel, capability, send packet, each once, in this order
    and each for the contract's own port and the channel of the message.
    A packet it submits has that port and channel as source and the data
    of the message; it reports success only after submitting one.  A
    message without a send-packet part gets the bare [ErrUnknownMsg] and
    no call at all. *)
Theorem ibc_calls_stay_on_own_channel (s : St) :
  match send_packet_of msg with
  | None =>
      ibc_recorded convertWasmIBCTimeoutHeightToCosmosHeight
        ChannelCapabilityPath chk cak contractAddr contractIBCPortID msg (s, [])
      = (([], [], Some (Root ErrUnknownMsg)), (s, []))
  | Some sendPacket =>
      let channelID := wasmvmtypes.ChannelID sendPacket in
      exists err s' n channelCap packet,
        ibc_recorded convertWasmIBCTimeoutHeightToCosmosHeight
          ChannelCapabilityPath chk cak contractAddr contractIBCPortID msg
          (s, [])
        = (([], [], err),
           (s', firstn n
                  [Call_GetNextSequenceSend contractIBCPortID channelID;
                   Call_GetChannel contractIBCPortID channelID;
                   Call_GetCapability
                     (ChannelCapabilityPath contractIBCPortID channelID);
                   Call_SendPacket channelCap packet]))
        /\ channeltypes.SourcePort packet = contractIBCPortID
        /\ channeltypes.SourceChannel packet = channelID
        /\ channeltypes.Data packet = wasmvmtypes.Data sendPacket
        /\ (err = None -> n = 4)
  end.
Proof.
  destruct (send_packet_of msg) as [sendPacket|] eqn:Hsp.
  2:{ step_ibc; now rewrite Hsp. }
  cbv zeta; step_ibc; rewrite Hsp.
  pose (idle :=
    channeltypes.NewPacket (wasmvmtypes.Data sendPacket) 0 contractIBCPortID
      (wasmvmtypes.ChannelID sendPacket) "" ""
      (channeltypes.mkHeight 0 0) 0).
  destruct (String.eqb contractIBCPortID "").
  { eexists _, s, 0, None, idle; repeat split; discriminate. }
  destruct (String.eqb (wasmvmtypes.ChannelID sendPacket) "").
  { eexists _, s, 0, None, idle; repeat split; discriminate. }
  unfold bind, recorded; cbn.
  destruct (GetNextSequenceSend chk _ _ s) as [[sequence [|]] s1]; cbn.
  2:{ eexists _, s1, 1, None, idle; repeat split; discriminate. }
  destruct (GetChannel chk _ _ s1) as [[channelInfo [|]] s2]; cbn.
  2:{ eexists _, s2, 2, None, idle; repeat split; discriminate. }
  destruct (GetCapability cak _ s2) as [[channelCap [|]] s3]; cbn.
  2:{ eexists _, s3, 3, None, idle; repeat split; discriminate. }
  match goal with
  | |- context [SendPacket chk ?c ?p s3] =>
      destruct (SendPacket chk c p s3) as [err s4]
  end.
  eexists err, s4, 4, channelCap, _; repeat split.
Qed.

(** X5.  Whatever the ledger answers, the burn handler returns no events
    and no data.  A message without a burn part gets the bare
    [ErrUnknownMsg], and an amount that does not convert gets the
    conversion error as it is, both without any call.  Otherwise the calls
    are the first few of: transfer from the contract to the module, burn
    from the module, log, each once and in this order, and at least the
    transfer; success is reported only after all three. *)
Theorem burn_calls_are_transfer_burn_log (s : St) :
  match burn_of msg with
  | None =>
      burn_recorded ModuleName convertWasmCoinsToSdkCoins moduleLogger burner
        contractAddr contractIBCPortID msg (s, [])
      = (([], [], Some (Root ErrUnknownMsg)), (s, []))
  | Some burn =>
      match convertWasmCoinsToSdkCoins (wasmvmtypes.Amount_ burn) with
      | (_, Some e) =>
          burn_recorded ModuleName convertWasmCoinsToSdkCoins
            moduleLogger burner contractAddr contractIBCPortID msg (s, [])
          = (([], [], Some e), (s, []))
      | (coins, None) =>
          exists err s' n,
            burn_recorded ModuleName convertWasmCoinsToSdkCoins
              moduleLogger burner contractAddr contractIBCPortID msg (s, [])
            = (([], [], err),
               (s', firstn n
                      [Call_SendCoinsFromAccountToModule
                         contractAddr ModuleName coins;
                       Call_BurnCoins ModuleName coins;
                       Call_Info "Burned"
                         [LogString "amount"; LogCoins coins]]))
            /\ 1 <= n
            /\ (err = None -> n = 3)
      end
  end.
Proof.
  unfold burn_recorded, NewBurnCoinMessageHandler.
  destruct (burn_of msg) as [burn|]; [|reflexivity].
  destruct (convertWasmCoinsToSdkCoins _) as [coins [e|]]; [reflexivity|].
  cbn; unfold bind, recorded; cbn.
  destruct (SendCoinsFromAccountToModule burner _ _ _ s) as [[e|] s1]; cbn.
  { eexists _, s1, 1; repeat split; [lia|discriminate]. }
  destruct (BurnCoins burner _ _ s1) as [[e|] s2]; cbn.
  { eexists _, s2, 2; repeat split; [lia|discriminate]. }
  destruct (Info moduleLogger _ _ s2) as [[] s3].
  eexists _, s3, 3; repeat split; lia.
Qed.

(** The IBC handler calls no ledger. *)
Lemma ibc_recorded_no_ledger_call (s : St) :
  filter is_ledger_call
    (snd (snd (ibc_recorded convertWasmIBCTimeoutHeightToCosmosHeight
                 ChannelCapabilityPath chk cak
                 contractAddr contractIBCPortID msg (s, []))))
  = [].
Proof.
  step_ibc.
  destruct (send_packet_of msg) as [sendPacket|]; [|reflexivity].
  destruct (String.eqb contractIBCPortID ""); [reflexivity|].
  destruct (String.eqb (wasmvmtypes.ChannelID sendPacket) ""); [reflexivity|].
  unfold bind, recorded; cbn.
  destruct (GetNextSequenceSend chk _ _ s) as [[sequence [|]] s1];
    [|reflexivity]; cbn.
  destruct (GetChannel chk _ _ s1) as [[channelInfo [|]] s2];
    [|reflexivity]; cbn.
  destruct (GetCapability cak _ s2) as [[channelCap [|]] s3];
    [|reflexivity]; cbn.
  match goal with
  | |- context [SendPacket chk ?c ?p s3] =>
      destruct (SendPacket chk c p s3) as [err s4]
  end.
  reflexivity.
Qed.

(** X7.  In a chain where the burn handler follows the IBC handler, once
    the IBC handler answers with anything but the unknown-message signal
    (which it does only for a message with a send-packet part), the chain
    returns that answer and the record holds no ledger call: the burn part
    such a message may carry as well is never acted upon. *)
Theorem send_packet_shadows_burn
    (s s' : St) (events : list sdk.Event) (data : list (list byte))
    (err : option error) (calls : list Call) :
  ibc_recorded convertWasmIBCTimeoutHeightToCosmosHeight
    ChannelCapabilityPath chk cak contractAddr contractIBCPortID msg (s, [])
  = ((events, data, err), (s', calls)) ->
  is_unknown_msg err = false ->
  MessageHandlerChain_DispatchMsg
    (mkChain
       [ ibc_recorded convertWasmIBCTimeoutHeightToCosmosHeight
           ChannelCapabilityPath chk cak;
         burn_recorded ModuleName convertWasmCoinsToSdkCoins
           moduleLogger burner ])
    contractAddr contractIBCPortID msg (s, [])
  = ((events, data, err), (s', calls))
  /\ filter is_ledger_call calls = []
  /\ exists sendPacket, send_packet_of msg = Some sendPacket.
Proof.
  intros Hibc Hdec.
  split; [|split].
  - unfold MessageHandlerChain_DispatchMsg; simpl handlers.
    now apply chain_loop_stops.
  - pose proof (ibc_recorded_no_ledger_call s) as Hnone.
    now rewrite Hibc in Hnone.
  - revert Hibc; step_ibc.
    destruct (send_packet_of msg) as [sendPacket|]; [now exists sendPacket|].
    unfold ret; intros Heq; inversion Heq; subst; discriminate.
Qed.

End KeeperCalls.

(* ================================================================== *)
(** ** The further properties on the small deployment *)

(** Two copies of [C1] pass the signer check of [C1]. *)
Lemma repeated_signer_passes :
  check_signers [Scenario.C1; Scenario.C1] Scenario.C1 = None.
Proof.
  apply (proj2 (signers_pass_iff_all_are_contract
                  Scenario.C1 [Scenario.C1; Scenario.C1])).
  intros acct [<-|[<-|[]]]; reflexivity.
Defined.

(** A batch of two operations answers with two blobs. *)
Lemma two_operations_two_blobs :
  List.length
    [list_byte_of_string "/cosmos.bank.v1beta1.MsgSend";
     list_byte_of_string "/legacy.MsgSend"]
  = List.length [Scenario.sendFromC1; Scenario.legacySend].
Proof.
  exact (one_data_blob_per_operation
           (Scenario.sdkHandler (Some Scenario.serviceRouter)
              [Scenario.sendFromC1; Scenario.legacySend])
           Scenario.C1 "wasm.C1" Scenario.custom 0
           (s1 := 0) (s2 := 2)
           (events := [Scenario.transferred; Scenario.transferred])
           eq_refl eq_refl).
Defined.

(** An encoder that yields no operation for a custom message: the default
    handlers answer with an empty success and the store is untouched. *)
Lemma empty_batch_ends_chain :
  MessageHandlerChain_DispatchMsg
    (mkChain
       [ SDKMessageHandler_DispatchMsg
           (Scenario.sdkHandler (Some Scenario.serviceRouter) []);
         Scenario.ibcHandler;
         Scenario.burnHandler ])
    Scenario.C1 "wasm.C1" Scenario.custom 0
  = (([], [], None), 0).
Proof.
  exact (proj2 (proj2
           (sdk_handler_heads_chain
              (Scenario.sdkHandler (Some Scenario.serviceRouter) [])
              Scenario.C1 [Scenario.ibcHandler; Scenario.burnHandler]
              "wasm.C1" Scenario.custom 0))
           0 eq_refl).
Defined.

(** A message with both a send-packet and a burn part: the packet is
    submitted and nothing is burned. *)
Lemma packet_and_burn_only_sends :
  MessageHandlerChain_DispatchMsg
    (mkChain
       [ ibc_recorded Scenario.convertHeight Scenario.capabilityPath
           Scenario.channels Scenario.capabilities;
         burn_recorded Scenario.ModuleName Scenario.convertCoins
           Scenario.logger Scenario.bank ])
    Scenario.C1 "wasm.C1" Scenario.packetAndBurn (0, [])
  = (([], [], None),
     (1, [Call_GetNextSequenceSend "wasm.C1" "channel-0";
          Call_GetChannel "wasm.C1" "channel-0";
          Call_GetCapability "capabilities/ports/wasm.C1/channels/channel-0";
          Call_SendPacket (Some (channeltypes.mkCapability 5))
            {| channeltypes.Sequence := 42;
               channeltypes.SourcePort := "wasm.C1";
               channeltypes.SourceChannel := "channel-0";
               channeltypes.DestinationPort := "transfer";
               channeltypes.DestinationChannel := "channel-7";
               channeltypes.Data := [x01; x02];
               channeltypes.TimeoutHeight := channeltypes.mkHeight 1 1000;
               channeltypes.TimeoutTimestamp := 0 |}])).
Proof.
  exact (proj1
           (send_packet_shadows_burn
              Scenario.convertHeight Scenario.capabilityPath
              Scenario.channels Scenario.capabilities
              Scenario.ModuleName Scenario.convertCoins
              Scenario.logger Scenario.bank
              Scenario.C1 "wasm.C1" Scenario.packetAndBurn 0
              eq_refl eq_refl)).
Defined.
